(** * Quivr sync plugin (src/main.ts): folder reconciliation and uploads

    A shallow embedding of the sync routine of the plugin: [fetchFiles],
    [createFolder], [exploreAndUpload], [uploadFile] and [addKnowledgeFile].

    Conventions of the embedding.
    - A JavaScript string is held as the bytes of its UTF-8 encoding in a
      [string]; the strings the program compares and splices are ASCII.
    - An [async] method is a computation in the monad [M] below: it reads and
      changes the outside world (vault, remote service), emits the events it
      causes in program order, and either returns or throws.
    - [response.json] is declared [any] by the host; the program reads it as
      the item array of the listing and reads the [id] of a creation reply.
      These two readings are operations of the host interface. *)

From Stdlib Require Import List String Ascii ZArith NArith Bool Lia.
From Stdlib Require Import Strings.Byte DecimalString.
Import ListNotations.
Local Open Scope string_scope.
Local Open Scope Z_scope.

(** ** Strings *)

Module Str.

(** The double quote, carriage return and line feed characters. *)
Definition dquote_char : ascii := ascii_of_nat 34.
Definition backslash_char : ascii := ascii_of_nat 92.
Definition DQ : string := String dquote_char EmptyString.
Definition CRLF : string :=
  String (ascii_of_nat 13) (String (ascii_of_nat 10) EmptyString).

(** [Array.prototype.join] on an array of strings. *)
Fixpoint join (sep : string) (l : list string) : string :=
  match l with
  | [] => EmptyString
  | [x] => x
  | x :: rest => x ++ sep ++ join sep rest
  end.

(** Strip a literal prefix. *)
Fixpoint expect (p s : string) : option string :=
  match p with
  | EmptyString => Some s
  | String a p' =>
      match s with
      | EmptyString => None
      | String b s' => if Ascii.eqb a b then expect p' s' else None
      end
  end.

(** [s] without its suffix [suf]. *)
Fixpoint strip_suffix (suf s : string) : option string :=
  if (s =? suf)%string then Some EmptyString
  else match s with
       | EmptyString => None
       | String c s' =>
           match strip_suffix suf s' with
           | Some r => Some (String c r)
           | None => None
           end
       end.

End Str.
Import Str.

(** ** JSON text of the knowledge data *)

(** [AddKnowledgeFileData] (main.ts 16-20). *)
Record AddKnowledgeFileData : Type := mkKnowledgeData {
  kd_parent_id : option string;   (* string | null *)
  kd_file_name : string;
  kd_is_folder : bool
}.

Module JSON.

(** Lower-case hexadecimal digit of a value below 16. *)
Definition hex_digit (n : N) : ascii :=
  if (n <? 10)%N then ascii_of_N (48 + n) else ascii_of_N (87 + n).

(** ECMAScript QuoteJSONString, one code unit: the short escapes, then
    [\u00xx] for the other control characters, everything else as it is. *)
Definition escape_char (c : ascii) : string :=
  let n := N_of_ascii c in
  if (n =? 8)%N then "\b"
  else if (n =? 9)%N then "\t"
  else if (n =? 10)%N then "\n"
  else if (n =? 12)%N then "\f"
  else if (n =? 13)%N then "\r"
  else if (n =? 34)%N then String backslash_char DQ
  else if (n =? 92)%N then "\\"
  else if (n <? 32)%N then
    "\u00" ++ String (hex_digit (n / 16)) (String (hex_digit (n mod 16)) EmptyString)
  else String c EmptyString.

Fixpoint escape (s : string) : string :=
  match s with
  | EmptyString => EmptyString
  | String c s' => escape_char c ++ escape s'
  end.

Definition quote (s : string) : string := DQ ++ escape s ++ DQ.

(** [JSON.stringify] of an [AddKnowledgeFileData] object: the properties in
    creation order, no white space. *)
Definition stringify (d : AddKnowledgeFileData) : string :=
  "{" ++ quote "parent_id" ++ ":"
      ++ match kd_parent_id d with None => "null" | Some p => quote p end
      ++ "," ++ quote "file_name" ++ ":" ++ quote (kd_file_name d)
      ++ "," ++ quote "is_folder" ++ ":"
      ++ (if kd_is_folder d then "true" else "false") ++ "}".

(** *** Reading the text back *)

Definition hex_value (c : ascii) : option N :=
  let n := N_of_ascii c in
  if ((48 <=? n) && (n <=? 57))%N then Some (n - 48)%N
  else if ((97 <=? n) && (n <=? 102))%N then Some (n - 87)%N
  else if ((65 <=? n) && (n <=? 70))%N then Some (n - 55)%N
  else None.

Definition hex4 (a b c d : ascii) : option N :=
  match hex_value a, hex_value b, hex_value c, hex_value d with
  | Some x, Some y, Some z, Some w => Some (((x * 16 + y) * 16 + z) * 16 + w)%N
  | _, _, _, _ => None
  end.

Definition cons_char (c : ascii) (r : option (string * string)) : option (string * string) :=
  match r with
  | Some (v, rest) => Some (String c v, rest)
  | None => None
  end.

(** The characters of a JSON string after its opening quote, up to and
    including the closing quote; returns the value and the remaining text.
    Code units above 255 have no place in the byte model and are refused. *)
Fixpoint read_chars (s : string) : option (string * string) :=
  match s with
  | EmptyString => None
  | String c rest =>
      if Ascii.eqb c dquote_char then Some (EmptyString, rest)
      else if Ascii.eqb c backslash_char then
        match rest with
        | EmptyString => None
        | String e rest1 =>
            let n := N_of_ascii e in
            if (n =? 98)%N then cons_char (ascii_of_nat 8) (read_chars rest1)
            else if (n =? 116)%N then cons_char (ascii_of_nat 9) (read_chars rest1)
            else if (n =? 110)%N then cons_char (ascii_of_nat 10) (read_chars rest1)
            else if (n =? 102)%N then cons_char (ascii_of_nat 12) (read_chars rest1)
            else if (n =? 114)%N then cons_char (ascii_of_nat 13) (read_chars rest1)
            else if (n =? 34)%N then cons_char dquote_char (read_chars rest1)
            else if (n =? 92)%N then cons_char backslash_char (read_chars rest1)
            else if (n =? 47)%N then cons_char (ascii_of_nat 47) (read_chars rest1)
            else if (n =? 117)%N then
              match rest1 with
              | String h1 (String h2 (String h3 (String h4 rest2))) =>
                  match hex4 h1 h2 h3 h4 with
                  | Some v =>
                      if (v <? 256)%N then cons_char (ascii_of_N v) (read_chars rest2)
                      else None
                  | None => None
                  end
              | _ => None
              end
            else None
        end
      else if (N_of_ascii c <? 32)%N then None
      else cons_char c (read_chars rest)
  end.

Definition read_string (s : string) : option (string * string) :=
  match s with
  | String c rest => if Ascii.eqb c dquote_char then read_chars rest else None
  | EmptyString => None
  end.

Definition read_nullable (s : string) : option (option string * string) :=
  match expect "null" s with
  | Some rest => Some (None, rest)
  | None =>
      match read_string s with
      | Some (v, rest) => Some (Some v, rest)
      | None => None
      end
  end.

Definition read_bool (s : string) : option (bool * string) :=
  match expect "true" s with
  | Some rest => Some (true, rest)
  | None =>
      match expect "false" s with
      | Some rest => Some (false, rest)
      | None => None
      end
  end.

(** Deserialize the text [stringify] produces back into the object. *)
Definition parse (s : string) : option AddKnowledgeFileData :=
  match expect ("{" ++ quote "parent_id" ++ ":") s with
  | None => None
  | Some s1 =>
  match read_nullable s1 with
  | None => None
  | Some (p, s2) =>
  match expect ("," ++ quote "file_name" ++ ":") s2 with
  | None => None
  | Some s3 =>
  match read_string s3 with
  | None => None
  | Some (f, s4) =>
  match expect ("," ++ quote "is_folder" ++ ":") s4 with
  | None => None
  | Some s5 =>
  match read_bool s5 with
  | None => None
  | Some (b, s6) =>
  match s6 with
  | "}" => Some (mkKnowledgeData p f b)
  | _ => None
  end end end end end end end.

(** A string is plain when quoting it changes none of its characters. *)
Definition plain_char (c : ascii) : bool :=
  let n := N_of_ascii c in
  negb (n <? 32)%N && negb (n =? 34)%N && negb (n =? 92)%N.

Fixpoint plain (s : string) : bool :=
  match s with
  | EmptyString => true
  | String c s' => plain_char c && plain s'
  end.

End JSON.

(** ** Data model *)

(** An item of the remote listing: the properties the program reads
    ([id], [file_name], [is_folder]) and its [parent_id]. *)
Module RemoteItem.
Record t : Type := make {
  id : string;
  file_name : string;
  is_folder : bool;
  parent_id : option string
}.
End RemoteItem.

(** A vault file as the program uses it: [file.name] and [file.extension]. *)
Module TFile.
Record t : Type := make {
  path : string;
  name : string;
  extension : string
}.
End TFile.

(** [MyPluginSettings] (main.ts 7-13). *)
Record MyPluginSettings : Type := { apiKey : string }.
Definition DEFAULT_SETTINGS : MyPluginSettings := {| apiKey := "" |}.

(** The plugin object: [this.settings]. *)
Record MyPlugin : Type := { settings : MyPluginSettings }.

Definition Headers : Type := list (string * string).

(** The argument of the host's [requestUrl]. *)
Record RequestUrlParam : Type := {
  url : string;
  method : string;
  headers : Headers;
  body : option string
}.

(** What [requestUrl] resolves to: the two properties the program reads. *)
Record RequestUrlResponse (Json : Type) : Type := {
  status : Z;
  json : Json
}.
Arguments status {Json} _.
Arguments json {Json} _.

(** Web [Blob] and [File]. *)
Record Blob : Type := { blob_bytes : list byte; blob_type : string }.
Record File : Type := { file_bits : list byte; file_name : string; file_type : string }.

(** [new Blob(parts, { type })] for string parts: their UTF-8 bytes. *)
Definition new_Blob (parts : list string) (type : string) : Blob :=
  {| blob_bytes := flat_map list_byte_of_string parts; blob_type := type |}.

(** [new File(parts, name)] for blob parts, with no options: the bytes of the
    parts; the [type] option is absent, so the file's type is the empty
    string (the type of a blob part is not taken over). *)
Definition new_File (parts : list Blob) (name : string) : File :=
  {| file_bits := flat_map blob_bytes parts; file_name := name; file_type := "" |}.

(** [FormData]: the entries in order of [append]. *)
Inductive FormDataEntryValue : Type :=
| FormString (s : string)
| FormFile (f : File).

Definition FormData : Type := list (string * FormDataEntryValue).

Definition FormData_append (fd : FormData) (name : string) (v : FormDataEntryValue) : FormData :=
  (fd ++ [(name, v)])%list.

Fixpoint FormData_get (fd : FormData) (name : string) : option FormDataEntryValue :=
  match fd with
  | [] => None
  | (k, v) :: rest => if (k =? name)%string then Some v else FormData_get rest name
  end.

(** [axios.create(config)]. *)
Record AxiosInstance : Type := { baseURL : string; defaults_headers : Headers }.

Record AxiosResponse (Json : Type) : Type := { axios_status : Z; data : Json }.
Arguments axios_status {Json} _.
Arguments data {Json} _.

(** How an awaited call ends. *)
Inductive Completion (E A : Type) : Type :=
| Returns (a : A)
| Throws (e : E).
Arguments Returns {E A} _.
Arguments Throws {E A} _.

(** Decimal text of an integral number, as a template literal renders it. *)
Definition Number_toString (z : Z) : string :=
  DecimalString.NilZero.string_of_int (Z.to_int z).

(** Truthiness of a [string | null] value: [null] and the empty string are
    falsy. *)
Definition truthy (v : option string) : bool :=
  match v with
  | None => false
  | Some s => negb (s =? "")%string
  end.

(** ** The host: vault, network and what they answer *)

Class Host : Type := {
  (** state of everything outside the plugin *)
  World : Type;
  (** values of [response.json] and [response.data] *)
  Json : Type;
  (** thrown values *)
  Error : Type;
  (** [response.json] read as the listing's array of items *)
  json_files : Json -> list RemoteItem.t;
  (** [responseData.id] *)
  json_id : Json -> string;
  (** string conversion inside a template literal *)
  json_toString : Json -> string;
  error_toString : Error -> string;
  (** [this.app.vault.getMarkdownFiles()] *)
  vault_getMarkdownFiles : World -> list TFile.t;
  (** [this.app.vault.read(file)] *)
  vault_read : TFile.t -> World -> Completion Error string * World;
  (** [requestUrl(param)]: rejects, or resolves to a response of any status *)
  requestUrl : RequestUrlParam -> World -> Completion Error (RequestUrlResponse Json) * World;
  (** [axiosInstance.post(url, data, { headers })] *)
  axios_post : AxiosInstance -> string -> FormData -> Headers -> World
               -> Completion Error (AxiosResponse Json) * World
}.

(** ** Events and the monad of asynchronous methods *)

Section Program.

Context {host : Host}.

(** What a run does that can be seen from outside, in program order. The
    entry into [uploadFile] is recorded with its arguments. *)
Inductive Event : Type :=
| Notice (message : string) (duration : option Z)
| NoticeJson (message : Json)
| ConsoleError (message : string) (detail : option Error)
| RequestUrl (param : RequestUrlParam)
| VaultRead (file : TFile.t)
| AxiosPost (instance : AxiosInstance) (path : string) (form : FormData) (hdrs : Headers)
| Enter_uploadFile (file : TFile.t) (parentId : option string).

Definition M (A : Type) : Type := World -> Completion Error A * World * list Event.

Definition ret {A} (a : A) : M A := fun w => (Returns a, w, []).

Definition bind {A B} (m : M A) (k : A -> M B) : M B :=
  fun w =>
    match m w with
    | (Returns a, w1, t1) =>
        match k a w1 with
        | (r, w2, t2) => (r, w2, (t1 ++ t2)%list)
        end
    | (Throws e, w1, t1) => (Throws e, w1, t1)
    end.

(** [try { m } catch (error) { h error }] *)
Definition try_catch {A} (m : M A) (h : Error -> M A) : M A :=
  fun w =>
    match m w with
    | (Returns a, w1, t1) => (Returns a, w1, t1)
    | (Throws e, w1, t1) =>
        match h e w1 with
        | (r, w2, t2) => (r, w2, (t1 ++ t2)%list)
        end
    end.

Definition emit (e : Event) : M unit := fun w => (Returns tt, w, [e]).

(** A call into the host, recorded by the event [e]. *)
Definition perform {A} (e : Event) (f : World -> Completion Error A * World) : M A :=
  fun w => match f w with (r, w1) => (r, w1, [e]) end.

Definition outcome {A} (r : Completion Error A * World * list Event) : Completion Error A :=
  fst (fst r).
Definition world_after {A} (r : Completion Error A * World * list Event) : World :=
  snd (fst r).
Definition events {A} (r : Completion Error A * World * list Event) : list Event :=
  snd r.

End Program.

Declare Scope js_scope.
Delimit Scope js_scope with js.
Notation "x <- m ;; k" := (bind m (fun x => k))
  (at level 100, m at next level, right associativity) : js_scope.
Notation "m ;; k" := (bind m (fun _ => k))
  (at level 100, right associativity) : js_scope.

Section Methods.

Context {host : Host}.
Local Open Scope js_scope.

(** [for (const x of xs) { await body(x) }]: a throw ends the loop. *)
Fixpoint for_of {A} (xs : list A) (body : A -> M unit) : M unit :=
  match xs with
  | [] => ret tt
  | x :: rest => body x ;; for_of rest body
  end.

Definition notice (message : string) : M unit := emit (Notice message None).
Definition console_error (message : string) (detail : option Error) : M unit :=
  emit (ConsoleError message detail).

(** [addKnowledgeFile] (main.ts 23-39). *)
Definition addKnowledgeFile (knowledgeData : AddKnowledgeFileData) (file : File)
    (axiosInstance : AxiosInstance) : M Json :=
  let formData : FormData := [] in
  let formData := FormData_append formData "knowledge_data"
                    (FormString (JSON.stringify knowledgeData)) in
  let formData := FormData_append formData "file" (FormFile file) in
  let hdrs := [("Content-Type", "multipart/form-data")] in
  response <- perform (AxiosPost axiosInstance "/knowledge/" formData hdrs)
                      (axios_post axiosInstance "/knowledge/" formData hdrs) ;;
  ret (data response).

Definition bearer (this : MyPlugin) : string :=
  "Bearer " ++ apiKey (settings this).

Definition files_request (this : MyPlugin) : RequestUrlParam :=
  {| url := "https://api.quivr.app/knowledge/files";
     method := "GET";
     headers := [("accept", "application/json"); ("Authorization", bearer this)];
     body := None |}.

(** [fetchFiles] (main.ts 106-130). *)
Definition fetchFiles (this : MyPlugin) : M (list RemoteItem.t) :=
  try_catch
    (response <- perform (RequestUrl (files_request this)) (requestUrl (files_request this)) ;;
     if status response =? 200 then
       let files := json_files (json response) in
       ret files
     else
       let text := "Failed to fetch files: " ++ Number_toString (status response)
                     ++ " " ++ json_toString (json response) in
       notice text ;;
       console_error text None ;;
       ret [])
    (fun error =>
       console_error "Error fetching files:" (Some error) ;;
       notice "Error fetching files. Check console for details." ;;
       ret []).

Definition boundary : string := "----WebKitFormBoundaryjpD4mAhPBDMdS5QN".

(** The framing around the one part of the template literal of
    [createFolder], and the text spliced between. *)
Definition part_open : string :=
  "--" ++ boundary ++ CRLF
    ++ "Content-Disposition: form-data; name=" ++ DQ ++ "knowledge_data" ++ DQ
    ++ CRLF ++ CRLF.
Definition part_close : string :=
  CRLF ++ "--" ++ boundary ++ "--" ++ CRLF.

Definition folder_knowledge_text (folderName : string) : string :=
  "{" ++ DQ ++ "parent_id" ++ DQ ++ ":null,"
      ++ DQ ++ "file_name" ++ DQ ++ ":" ++ DQ ++ folderName ++ DQ ++ ","
      ++ DQ ++ "is_folder" ++ DQ ++ ":true}".

Definition folder_request (this : MyPlugin) (folderName : string) : RequestUrlParam :=
  {| url := "https://api.quivr.app/knowledge/";
     method := "POST";
     headers := [("accept", "application/json");
                 ("Authorization", bearer this);
                 ("content-type", "multipart/form-data; boundary=" ++ boundary)];
     body := Some (part_open ++ folder_knowledge_text folderName ++ part_close) |}.

(** [createFolder] (main.ts 132-160). *)
Definition createFolder (this : MyPlugin) (folderName : string) : M (option string) :=
  try_catch
    (response <- perform (RequestUrl (folder_request this folderName))
                         (requestUrl (folder_request this folderName)) ;;
     if status response =? 200 then
       let responseData := json response in
       let folderId := json_id responseData in
       notice ("Folder " ++ DQ ++ folderName ++ DQ ++ " created successfully with ID: "
                 ++ folderId ++ ".") ;;
       ret (Some folderId)
     else
       notice ("Failed to create folder " ++ DQ ++ folderName ++ DQ ++ ".") ;;
       emit (NoticeJson (json response)) ;;
       ret None)
    (fun error =>
       console_error ("Error creating folder " ++ DQ ++ folderName ++ DQ ++ ":") (Some error) ;;
       notice ("Error creating folder " ++ DQ ++ folderName ++ DQ ++ ".") ;;
       ret None).

(** The [FormData] an upload of [file] with content [fileContent] sends
    (main.ts 192-199 and 28-30). *)
Definition upload_blob (file : TFile.t) (fileContent : string) : Blob :=
  new_Blob [fileContent]
    (if (TFile.extension file =? "md")%string then "text/markdown" else "application/pdf").

Definition upload_knowledgeData (file : TFile.t) (parentId : option string)
    : AddKnowledgeFileData :=
  {| kd_parent_id := parentId;
     kd_file_name := TFile.name file;
     kd_is_folder := false |}.

Definition upload_axios (this : MyPlugin) : AxiosInstance :=
  {| baseURL := "https://api.quivr.app";
     defaults_headers := [("Authorization", bearer this)] |}.

(** The [try] block of [uploadFile] (main.ts 191-210). *)
Definition uploadFile_try (this : MyPlugin) (file : TFile.t) (parentId : option string)
    : M unit :=
  fileContent <- perform (VaultRead file) (vault_read file) ;;
  let blob := upload_blob file fileContent in
  let fileToUpload := new_File [blob] (TFile.name file) in
  let knowledgeData := upload_knowledgeData file parentId in
  let axiosInstance := upload_axios this in
  response <- addKnowledgeFile knowledgeData fileToUpload axiosInstance ;;
  notice ("File uploaded successfully: " ++ TFile.name file).

Definition upload_error_notice (file : TFile.t) (error : Error) : Event :=
  Notice ("Error uploading file " ++ DQ ++ TFile.name file ++ DQ ++ ": "
            ++ error_toString error) (Some 10000).

(** [uploadFile] (main.ts 189-214). The first event stands for no statement
    of the source: it records that the method was entered, and with which
    arguments, so that a trace shows every upload call. *)
Definition uploadFile (this : MyPlugin) (file : TFile.t) (parentId : option string) : M unit :=
  emit (Enter_uploadFile file parentId) ;;
  try_catch (uploadFile_try this file parentId)
    (fun error => emit (upload_error_notice file error)).

(** The predicate of [files.find] (main.ts 169). *)
Definition is_sync_folder (file : RemoteItem.t) : bool :=
  (RemoteItem.file_name file =? "obsidian-sync")%string && RemoteItem.is_folder file.

(** The reconciliation step of [exploreAndUpload] (main.ts 166-177): the
    value [obsidianSyncFolderId] holds after it. *)
Definition reconcile (this : MyPlugin) (files : list RemoteItem.t) : M (option string) :=
  match find is_sync_folder files with
  | Some existingFolder =>
      notice ("Found existing folder: " ++ RemoteItem.file_name existingFolder) ;;
      ret (Some (RemoteItem.id existingFolder))
  | None =>
      notice "Creating new folder in Quivr..." ;;
      createFolder this "obsidian-sync"
  end.

(** Folder resolution: the listing, its notice and the reconciliation
    (main.ts 164-177). *)
Definition resolveFolder (this : MyPlugin) : M (option string) :=
  files <- fetchFiles this ;;
  notice ("Found Quivr files: " ++ join ", " (map RemoteItem.file_name files)) ;;
  reconcile this files.

(** The body of the upload loop (main.ts 181-182). *)
Definition upload_step (this : MyPlugin) (obsidianSyncFolderId : option string)
    (file : TFile.t) : M unit :=
  notice ("Uploading file: " ++ TFile.name file) ;;
  uploadFile this file obsidianSyncFolderId.

(** The upload loop and its guard (main.ts 179-186). *)
Definition uploadAll (this : MyPlugin) (markdownFiles : list TFile.t)
    (obsidianSyncFolderId : option string) : M unit :=
  if truthy obsidianSyncFolderId then
    for_of markdownFiles (upload_step this obsidianSyncFolderId)
  else
    notice "Failed to determine folder ID for uploads.".

(** [exploreAndUpload] (main.ts 162-187). *)
Definition exploreAndUpload (this : MyPlugin) : M unit :=
  fun w =>
    let markdownFiles := vault_getMarkdownFiles w in
    (obsidianSyncFolderId <- resolveFolder this ;;
     uploadAll this markdownFiles obsidianSyncFolderId) w.

End Methods.

(** ** What a trace shows *)

Section Observers.

Context {host : Host}.

(** The listing call: the GET of [fetchFiles]. *)
Definition is_listing_call (e : Event) : bool :=
  match e with
  | RequestUrl p =>
      (method p =? "GET")%string && (url p =? "https://api.quivr.app/knowledge/files")%string
  | _ => false
  end.

(** The create-folder calls of a trace: the POSTs of [createFolder]. *)
Definition create_folder_call (e : Event) : list RequestUrlParam :=
  match e with
  | RequestUrl p =>
      if (method p =? "POST")%string && (url p =? "https://api.quivr.app/knowledge/")%string
      then [p] else []
  | _ => []
  end.

(** The upload calls of a trace: each entry into [uploadFile], with the
    document and the [parentId] passed. *)
Definition upload_call (e : Event) : list (TFile.t * option string) :=
  match e with
  | Enter_uploadFile f p => [(f, p)]
  | _ => []
  end.

(** The forms posted to the upload endpoint. *)
Definition upload_post (e : Event) : list FormData :=
  match e with
  | AxiosPost _ _ form _ => [form]
  | _ => []
  end.

Definition listing_calls (t : list Event) : list Event := filter is_listing_call t.
Definition create_folder_calls (t : list Event) : list RequestUrlParam :=
  flat_map create_folder_call t.
Definition upload_calls (t : list Event) : list (TFile.t * option string) :=
  flat_map upload_call t.
Definition upload_posts (t : list Event) : list FormData := flat_map upload_post t.

End Observers.

(** ** Reading a request back *)

(** The knowledge data of the one-part body [createFolder] sends: the text
    between the framing, deserialized. *)
Definition body_knowledge (b : option string) : option AddKnowledgeFileData :=
  match b with
  | None => None
  | Some text =>
      match expect part_open text with
      | None => None
      | Some rest =>
          match strip_suffix part_close rest with
          | None => None
          | Some k => JSON.parse k
          end
      end
  end.

(** ** The form of an upload *)

Section UploadForm.

Context {host : Host}.
Variable this : MyPlugin.

(** The form [uploadFile] posts for [file] once its content is read. *)
Definition upload_form (file : TFile.t) (parentId : option string) (fileContent : string)
    : FormData :=
  [("knowledge_data", FormString (JSON.stringify (upload_knowledgeData file parentId)));
   ("file", FormFile (new_File [upload_blob file fileContent] (TFile.name file)))].

Definition upload_headers : Headers := [("Content-Type", "multipart/form-data")].

Definition upload_post_event (file : TFile.t) (parentId : option string) (fileContent : string)
    : Event :=
  AxiosPost (upload_axios this) "/knowledge/" (upload_form file parentId fileContent)
    upload_headers.

(** The upload of [file] fails from the world [w]: reading the document
    throws, the POST throws (as it does on a status outside 2xx), or the
    POST is answered with a status other than 200. *)
Definition upload_fails (file : TFile.t) (parentId : option string) (w : World) : Prop :=
  match vault_read file w with
  | (Throws _, _) => True
  | (Returns c, w1) =>
      match axios_post (upload_axios this) "/knowledge/" (upload_form file parentId c)
              upload_headers w1 with
      | (Throws _, _) => True
      | (Returns r, _) => axios_status r <> 200
      end
  end.

End UploadForm.

(** ** The sync command *)

Section Commands.

Context {host : Host}.
Local Open Scope js_scope.

(** [this.app.vault.getRoot().name]. The host interface above has no
    operation for the root folder; its name is a parameter here. *)
Variable root_name : World -> string.

(** The callback of the command [quivr-sync] (main.ts 63-73). *)
Definition quivr_sync (this : MyPlugin) : M unit :=
  notice "Starting sync to Quivr..." ;;
  (fun w => notice ("Root folder: " ++ root_name w) w) ;;
  exploreAndUpload this ;;
  notice "Finished uploading files. Fetching files from Quivr..." ;;
  files <- fetchFiles this ;;
  let folders := filter RemoteItem.is_folder files in
  notice ("Folders: " ++ join ", " (map RemoteItem.file_name folders)) ;;
  notice "Sync complete.".

End Commands.

(** ** More of what a trace shows *)

Section MoreObservers.

Context {host : Host}.

Definition has_header (h : Headers) (name value : string) : bool :=
  existsb (fun kv => (fst kv =? name)%string && (snd kv =? value)%string) h.

(** A network call goes to the Quivr API and carries the bearer token of
    the plugin's settings; the other events are no network calls. *)
Definition to_quivr_with_token (this : MyPlugin) (e : Event) : bool :=
  match e with
  | RequestUrl p =>
      String.prefix "https://api.quivr.app/" (url p)
      && has_header (headers p) "Authorization" ("Bearer " ++ apiKey (settings this))
  | AxiosPost instance path _ _ =>
      (baseURL instance =? "https://api.quivr.app")%string
      && String.prefix "/" path
      && has_header (defaults_headers instance) "Authorization"
           ("Bearer " ++ apiKey (settings this))
  | _ => true
  end.

(** The event belongs to folder resolution: it is no entry into
    [uploadFile], no read of a document and no POST of a form. *)
Definition before_uploads (e : Event) : bool :=
  match e with
  | Enter_uploadFile _ _ | VaultRead _ | AxiosPost _ _ _ _ => false
  | _ => true
  end.

(** The event is no call of [requestUrl]. *)
Definition no_request (e : Event) : bool :=
  match e with
  | RequestUrl _ => false
  | _ => true
  end.

(** The documents a trace reads, in order. *)
Definition vault_read_of (e : Event) : list TFile.t :=
  match e with
  | VaultRead f => [f]
  | _ => []
  end.

Definition vault_reads (t : list Event) : list TFile.t := flat_map vault_read_of t.

(** The request [p] fails from the world [w]: it throws, or it is answered
    with a status other than 200. *)
Definition request_fails (p : RequestUrlParam) (w : World) : Prop :=
  match requestUrl p w with
  | (Returns response, _) => status response <> 200
  | (Throws _, _) => True
  end.

End MoreObservers.

(** ** Settings *)

(** What [loadData] resolves to: [null] when nothing was saved, else the
    saved object, whose [apiKey] may be absent. *)
Record SavedData : Type := { saved_apiKey : option string }.

(** [Object.assign({}, DEFAULT_SETTINGS, data)]: a fresh object with the
    defaults, overridden by the properties [data] has. *)
Definition Object_assign_settings (defaults : MyPluginSettings) (data : option SavedData)
    : MyPluginSettings :=
  match data with
  | Some d =>
      match saved_apiKey d with
      | Some k => {| apiKey := k |}
      | None => defaults
      end
  | None => defaults
  end.

Section Settings.

Context {host : Host}.

(** [this.loadData()] and [this.saveData(data)] of the host's plugin class;
    the host interface above has no operation for them. *)
Variable loadData : World -> Completion Error (option SavedData) * World.
Variable saveData : MyPluginSettings -> World -> Completion Error unit * World.

(** [loadSettings] (main.ts 98-100): the plugin after the call, how the
    call ended and the world. When [loadData] throws, the assignment to
    [this.settings] is not reached. *)
Definition loadSettings (this : MyPlugin) (w : World)
    : MyPlugin * Completion Error unit * World :=
  match loadData w with
  | (Returns data, w1) =>
      ({| settings := Object_assign_settings DEFAULT_SETTINGS data |}, Returns tt, w1)
  | (Throws e, w1) => (this, Throws e, w1)
  end.

(** [saveSettings] (main.ts 102-104). *)
Definition saveSettings (this : MyPlugin) (w : World) : Completion Error unit * World :=
  saveData (settings this) w.

(** The [onChange] handler of the API key field (main.ts 253-256): the key
    is assigned first, then the settings are saved. *)
Definition onChange (this : MyPlugin) (value : string) (w : World)
    : MyPlugin * Completion Error unit * World :=
  let this1 := {| settings := {| apiKey := value |} |} in
  match saveSettings this1 w with
  | (r, w1) => (this1, r, w1)
  end.

End Settings.

(** ** A remote service and a vault to run the methods against *)

Module Sim.

(** Bodies the simulated service answers with. *)
Inductive reply : Type :=
| JFiles (items : list RemoteItem.t)
| JItem (item : RemoteItem.t)
| JDetail (detail : string).

Record world : Type := {
  (** the items the service holds *)
  remote : list RemoteItem.t;
  (** status of the listing's answer; [None]: the request is rejected *)
  listing : option Z;
  (** status of the answer to a creation; [None]: the request is rejected *)
  creating : option Z;
  (** the markdown documents, each with its content when it can be read *)
  vault : list (TFile.t * option string);
  (** names of the documents whose upload the service refuses *)
  refused : list string;
  (** the ids the service hands out next *)
  fresh : list string
}.

Definition to_files (j : reply) : list RemoteItem.t :=
  match j with JFiles l => l | _ => [] end.
Definition to_id (j : reply) : string :=
  match j with JItem r => RemoteItem.id r | _ => "" end.
Definition to_text (j : reply) : string :=
  match j with
  | JFiles l => join "," (map (fun _ => "[object Object]") l)
  | JItem _ => "[object Object]"
  | JDetail s => s
  end.

(** The service stores an item for the knowledge data under the next id. *)
Definition store (d : AddKnowledgeFileData) (w : world)
    : Completion string (Z * reply) * world :=
  match fresh w with
  | [] => (Returns (507, JDetail "no id left"), w)
  | i :: rest =>
      let item := RemoteItem.make i (kd_file_name d) (kd_is_folder d) (kd_parent_id d) in
      (Returns (200, JItem item),
       {| remote := (remote w ++ [item])%list; listing := listing w;
          creating := creating w; vault := vault w; refused := refused w;
          fresh := rest |})
  end.

Definition answer (r : Completion string (Z * reply) * world)
    : Completion string (RequestUrlResponse reply) * world :=
  match r with
  | (Returns (st, j), w) => (Returns {| status := st; json := j |}, w)
  | (Throws e, w) => (Throws e, w)
  end.

Definition sim_requestUrl (p : RequestUrlParam) (w : world)
    : Completion string (RequestUrlResponse reply) * world :=
  if (method p =? "GET")%string then
    match listing w with
    | None => (Throws "net::ERR_CONNECTION_REFUSED", w)
    | Some st =>
        if st =? 200 then (Returns {| status := 200; json := JFiles (remote w) |}, w)
        else (Returns {| status := st; json := JDetail "listing failed" |}, w)
    end
  else
    match creating w with
    | None => (Throws "net::ERR_CONNECTION_REFUSED", w)
    | Some st =>
        if st =? 200 then
          match body_knowledge (body p) with
          | Some d => answer (store d w)
          | None => (Returns {| status := 422; json := JDetail "knowledge_data unreadable" |}, w)
          end
        else (Returns {| status := st; json := JDetail "creation failed" |}, w)
    end.

Fixpoint lookup (f : TFile.t) (v : list (TFile.t * option string)) : option string :=
  match v with
  | [] => None
  | (g, c) :: rest => if (TFile.path g =? TFile.path f)%string then c else lookup f rest
  end.

Definition sim_read (f : TFile.t) (w : world) : Completion string string * world :=
  match lookup f (vault w) with
  | Some c => (Returns c, w)
  | None => (Throws "ENOENT", w)
  end.

Definition sim_post (_ : AxiosInstance) (_ : string) (form : FormData) (_ : Headers)
    (w : world) : Completion string (AxiosResponse reply) * world :=
  match FormData_get form "knowledge_data" with
  | Some (FormString text) =>
      match JSON.parse text with
      | Some d =>
          if existsb (String.eqb (kd_file_name d)) (refused w)
          then (Throws "Request failed with status code 500", w)
          else match store d w with
               | (Returns (st, j), w') => (Returns {| axios_status := st; data := j |}, w')
               | (Throws e, w') => (Throws e, w')
               end
      | None => (Throws "Request failed with status code 422", w)
      end
  | _ => (Throws "Request failed with status code 422", w)
  end.

Definition host : Host := {|
  World := world;
  Json := reply;
  Error := string;
  json_files := to_files;
  json_id := to_id;
  json_toString := to_text;
  error_toString := fun e => e;
  vault_getMarkdownFiles := fun w => map fst (vault w);
  vault_read := sim_read;
  requestUrl := sim_requestUrl;
  axios_post := sim_post
|}.

(** *** Inputs *)

Definition plugin : MyPlugin := {| settings := {| apiKey := "key" |} |}.

Definition notes : TFile.t := TFile.make "notes.md" "notes.md" "md".
Definition todo : TFile.t := TFile.make "work/todo.md" "todo.md" "md".
Definition diary : TFile.t := TFile.make "diary.md" "diary.md" "md".

Definition sync_folder (i : string) (parent : option string) : RemoteItem.t :=
  RemoteItem.make i "obsidian-sync" true parent.

Definition service (items : list RemoteItem.t) (l c : option Z)
    (docs : list (TFile.t * option string)) (no : list string) : world :=
  {| remote := items; listing := l; creating := c; vault := docs; refused := no;
     fresh := ["id-1"; "id-2"; "id-3"; "id-4"] |}.

(** The service holds the folder; three documents, the second is refused. *)
Definition w_folder : world :=
  service [sync_folder "f1" None] (Some 200) (Some 200)
    [(notes, Some "# Hello"); (todo, Some "- [ ] write"); (diary, Some "today")]
    ["todo.md"].

(** The folder the service holds has the empty string as its id. *)
Definition w_empty_id : world :=
  service [sync_folder "" None] (Some 200) (Some 200) [(notes, Some "# Hello")] [].

(** The service holds the folder, but the listing request is rejected. *)
Definition w_listing_down : world :=
  service [sync_folder "f1" None] None (Some 200) [(notes, Some "# Hello")] [].

(** Nothing is held and nothing can be created. *)
Definition w_down : world :=
  service [] (Some 503) None [(notes, Some "# Hello")] [].

(** Nothing is held yet; no local document. *)
Definition w_fresh : world := service [] (Some 200) (Some 200) [] [].

Definition archive : RemoteItem.t := RemoteItem.make "a" "archive" true None.

(** Two folders of that name: the first is nested under another item, the
    second sits at the top level. *)
Definition w_nested : world :=
  service [archive; sync_folder "n1" (Some "a"); sync_folder "f1" None]
    (Some 200) (Some 200) [(notes, Some "# Hello")] [].

(** A folder name with a double quote in it. *)
Definition quoted_name : string := "a" ++ DQ ++ "b".

End Sim.

(** ** More inputs for the simulated service *)

Module Cases.

(** The document [todo.md] is listed by the vault but cannot be read. *)
Definition w_unreadable : Sim.world :=
  Sim.service [Sim.sync_folder "f1" None] (Some 200) (Some 200)
    [(Sim.notes, Some "# Hello"); (Sim.todo, None)] [].

(** The service has no id left: it answers an upload with status 507 and
    the POST returns that answer instead of throwing. *)
Definition w_full : Sim.world :=
  {| Sim.remote := [Sim.sync_folder "f1" None]; Sim.listing := Some 200;
     Sim.creating := Some 200; Sim.vault := [(Sim.notes, Some "# Hello")];
     Sim.refused := []; Sim.fresh := [] |}.

(** Nothing is held; a creation is answered with status 201. *)
Definition w_created_201 : Sim.world :=
  Sim.service [] (Some 200) (Some 201) [(Sim.notes, Some "# Hello")] [].

End Cases.

(** The simulated service, answering a stored upload with 201 Created
    instead of 200. *)
Module Sim201.

Definition sim_post (i : AxiosInstance) (u : string) (form : FormData) (h : Headers)
    (w : Sim.world) : Completion string (AxiosResponse Sim.reply) * Sim.world :=
  match Sim.sim_post i u form h w with
  | (Returns r, w1) =>
      (Returns {| axios_status := if axios_status r =? 200 then 201 else axios_status r;
                  data := data r |}, w1)
  | (Throws e, w1) => (Throws e, w1)
  end.

Definition host : Host := {|
  World := Sim.world;
  Json := Sim.reply;
  Error := string;
  json_files := Sim.to_files;
  json_id := Sim.to_id;
  json_toString := Sim.to_text;
  error_toString := fun e => e;
  vault_getMarkdownFiles := fun w => map fst (Sim.vault w);
  vault_read := Sim.sim_read;
  requestUrl := Sim.sim_requestUrl;
  axios_post := sim_post
|}.

End Sim201.

(** The simulated service together with the plugin's stored data. *)
Module Disk.

Definition world : Type := (Sim.world * option SavedData)%type.

Definition lift {A} (f : Sim.world -> Completion string A * Sim.world) (w : world)
    : Completion string A * world :=
  match f (fst w) with
  | (r, w1) => (r, (w1, snd w))
  end.

Definition host : Host := {|
  World := world;
  Json := Sim.reply;
  Error := string;
  json_files := Sim.to_files;
  json_id := Sim.to_id;
  json_toString := Sim.to_text;
  error_toString := fun e => e;
  vault_getMarkdownFiles := fun w => map fst (Sim.vault (fst w));
  vault_read := fun f => lift (Sim.sim_read f);
  requestUrl := fun p => lift (Sim.sim_requestUrl p);
  axios_post := fun i u fd h => lift (Sim.sim_post i u fd h)
|}.

(** The stored data is what was saved last; nothing at first. *)
Definition loadData (w : world) : Completion string (option SavedData) * world :=
  (Returns (snd w), w).

Definition saveData (st : MyPluginSettings) (w : world) : Completion string unit * world :=
  (Returns tt, (fst w, Some {| saved_apiKey := Some (apiKey st) |})).

Definition fresh_install : world := (Sim.w_folder, None).

End Disk.

(** * Facts *)

(** ** Strings *)

Module StrFacts.

Lemma expect_app p s : expect p (p ++ s) = Some s.
Proof.
  induction p as [|a p IH]; simpl; [reflexivity|].
  rewrite Ascii.eqb_refl. exact IH.
Qed.

Lemma app_assoc (a b c : string) : (a ++ b) ++ c = a ++ (b ++ c).
Proof. induction a; simpl; congruence. Qed.

End StrFacts.

Example stringify_upload :
  JSON.stringify (mkKnowledgeData (Some "f1") "notes.md" false)
  = "{" ++ DQ ++ "parent_id" ++ DQ ++ ":" ++ DQ ++ "f1" ++ DQ ++ ","
        ++ DQ ++ "file_name" ++ DQ ++ ":" ++ DQ ++ "notes.md" ++ DQ ++ ","
        ++ DQ ++ "is_folder" ++ DQ ++ ":false}".
Proof. reflexivity. Qed.

Example parse_upload :
  JSON.parse (JSON.stringify (mkKnowledgeData (Some "f1") "notes.md" false))
  = Some (mkKnowledgeData (Some "f1") "notes.md" false).
Proof. vm_compute. reflexivity. Qed.

(** ** Round trip of the JSON text *)

Section JsonRoundTrip.

Lemma read_chars_escape (s rest : string) :
  JSON.read_chars (JSON.escape s ++ DQ ++ rest) = Some (s, rest).
Proof.
  induction s as [|c s IH]; [reflexivity|].
  cbn [JSON.escape]. rewrite StrFacts.app_assoc.
  destruct c as [[] [] [] [] [] [] [] []];
    cbn -[JSON.escape]; cbn in IH; rewrite IH; reflexivity.
Qed.

Lemma read_string_quote (s rest : string) :
  JSON.read_string (JSON.quote s ++ rest) = Some (s, rest).
Proof.
  unfold JSON.quote. rewrite !StrFacts.app_assoc.
  cbn [DQ append JSON.read_string]. rewrite Ascii.eqb_refl.
  apply read_chars_escape.
Qed.

Lemma read_nullable_quote (p : option string) (rest : string) :
  JSON.read_nullable
    (match p with None => "null" | Some v => JSON.quote v end ++ rest)
  = Some (p, rest).
Proof.
  destruct p as [v|]; unfold JSON.read_nullable.
  - rewrite read_string_quote.
    unfold JSON.quote. reflexivity.
  - rewrite StrFacts.expect_app. reflexivity.
Qed.

Lemma read_bool_text (b : bool) (rest : string) :
  JSON.read_bool ((if b then "true" else "false") ++ rest) = Some (b, rest).
Proof. destruct b; reflexivity. Qed.

Lemma stringify_parts (d : AddKnowledgeFileData) :
  JSON.stringify d
  = ("{" ++ JSON.quote "parent_id" ++ ":")
    ++ (match kd_parent_id d with None => "null" | Some v => JSON.quote v end
    ++ (("," ++ JSON.quote "file_name" ++ ":")
    ++ (JSON.quote (kd_file_name d)
    ++ (("," ++ JSON.quote "is_folder" ++ ":")
    ++ ((if kd_is_folder d then "true" else "false") ++ "}"))))).
Proof. unfold JSON.stringify. rewrite !StrFacts.app_assoc. reflexivity. Qed.

(** [JSON.parse] undoes [JSON.stringify] on every knowledge-data object. *)
Lemma parse_stringify (d : AddKnowledgeFileData) :
  JSON.parse (JSON.stringify d) = Some d.
Proof.
  rewrite stringify_parts. unfold JSON.parse.
  rewrite StrFacts.expect_app, read_nullable_quote.
  rewrite StrFacts.expect_app, read_string_quote.
  rewrite StrFacts.expect_app, read_bool_text.
  destruct d; reflexivity.
Qed.

(** Quoting a plain string only wraps it in double quotes. *)
Lemma escape_plain (s : string) : JSON.plain s = true -> JSON.escape s = s.
Proof.
  induction s as [|c s IH]; [reflexivity|].
  cbn [JSON.plain JSON.escape]. intros H.
  apply andb_true_iff in H. destruct H as [Hc Hs].
  rewrite (IH Hs).
  destruct c as [[] [] [] [] [] [] [] []]; try discriminate Hc; reflexivity.
Qed.

End JsonRoundTrip.

(** ** Observers and list operations *)

Section ObserverFacts.

Context {host : Host}.

Lemma listing_calls_app t u : listing_calls (t ++ u) = (listing_calls t ++ listing_calls u)%list.
Proof. apply filter_app. Qed.
Lemma create_folder_calls_app t u :
  create_folder_calls (t ++ u) = (create_folder_calls t ++ create_folder_calls u)%list.
Proof. apply flat_map_app. Qed.
Lemma upload_calls_app t u : upload_calls (t ++ u) = (upload_calls t ++ upload_calls u)%list.
Proof. apply flat_map_app. Qed.
Lemma upload_posts_app t u : upload_posts (t ++ u) = (upload_posts t ++ upload_posts u)%list.
Proof. apply flat_map_app. Qed.

Lemma listing_calls_cons e t :
  listing_calls (e :: t) = if is_listing_call e then e :: listing_calls t else listing_calls t.
Proof. reflexivity. Qed.
Lemma create_folder_calls_cons e t :
  create_folder_calls (e :: t) = (create_folder_call e ++ create_folder_calls t)%list.
Proof. reflexivity. Qed.
Lemma upload_calls_cons e t : upload_calls (e :: t) = (upload_call e ++ upload_calls t)%list.
Proof. reflexivity. Qed.
Lemma upload_posts_cons e t : upload_posts (e :: t) = (upload_post e ++ upload_posts t)%list.
Proof. reflexivity. Qed.

End ObserverFacts.

(** Push the observers of a trace through [::] and [++]. *)
Ltac observe :=
  repeat first
    [ rewrite upload_calls_app | rewrite create_folder_calls_app
    | rewrite listing_calls_app | rewrite upload_posts_app
    | rewrite upload_calls_cons | rewrite create_folder_calls_cons
    | rewrite listing_calls_cons | rewrite upload_posts_cons ];
  cbn [upload_call create_folder_call is_listing_call upload_post app].

(** ** Laws of the monad *)

Section MonadLaws.

Context {host : Host}.
Local Open Scope js_scope.

Lemma bind_run {A B} (m : M A) (k : A -> M B) (w : World) :
  bind m k w =
  match outcome (m w) with
  | Returns a =>
      let r := k a (world_after (m w)) in
      (outcome r, world_after r, (events (m w) ++ events r)%list)
  | Throws e => (Throws e, world_after (m w), events (m w))
  end.
Proof.
  unfold bind, outcome, world_after, events.
  destruct (m w) as [[[a|e] w1] t1]; cbn; [|reflexivity].
  destruct (k a w1) as [[r w2] t2]; reflexivity.
Qed.

Lemma try_catch_run {A} (m : M A) (h : Error -> M A) (w : World) :
  try_catch m h w =
  match outcome (m w) with
  | Returns a => (Returns a, world_after (m w), events (m w))
  | Throws e =>
      let r := h e (world_after (m w)) in
      (outcome r, world_after r, (events (m w) ++ events r)%list)
  end.
Proof.
  unfold try_catch, outcome, world_after, events.
  destruct (m w) as [[[a|e] w1] t1]; cbn; [reflexivity|].
  destruct (h e w1) as [[r w2] t2]; reflexivity.
Qed.

Lemma bind_ext {A B} (m : M A) (k k' : A -> M B) (w : World) :
  (forall a w', k a w' = k' a w') -> bind m k w = bind m k' w.
Proof.
  intros H. unfold bind. destruct (m w) as [[[a|e] w1] t1]; [|reflexivity].
  rewrite H. reflexivity.
Qed.

Lemma bind_assoc {A B C} (m : M A) (k : A -> M B) (l : B -> M C) (w : World) :
  bind (bind m k) l w = bind m (fun a => bind (k a) l) w.
Proof.
  unfold bind. destruct (m w) as [[[a|e] w1] t1]; [|reflexivity].
  destruct (k a w1) as [[[b|e] w2] t2]; [|reflexivity].
  destruct (l b w2) as [[r w3] t3]. rewrite <- List.app_assoc. reflexivity.
Qed.

Lemma bind_ret_l {A B} (a : A) (k : A -> M B) (w : World) : bind (ret a) k w = k a w.
Proof. unfold bind, ret. destruct (k a w) as [[r w2] t2]. reflexivity. Qed.

(** The loop over a concatenation is the loop over the first list followed
    by the loop over the second. *)
Lemma for_of_app {A} (xs ys : list A) (body : A -> M unit) (w : World) :
  for_of (xs ++ ys) body w = (for_of xs body ;; for_of ys body) w.
Proof.
  revert w. induction xs as [|x xs IH]; intros w.
  - cbn [for_of app]. rewrite bind_ret_l. reflexivity.
  - cbn [for_of app]. rewrite bind_assoc. apply bind_ext. intros _ w'. apply IH.
Qed.

End MonadLaws.

(** ** Symbolic runs of the methods *)

Section Runs.

Context {host : Host}.
Variable this : MyPlugin.
Local Open Scope js_scope.

Lemma uploadFile_try_run (file : TFile.t) (parentId : option string) (w : World) :
  uploadFile_try this file parentId w =
  match vault_read file w with
  | (Throws e, w1) => (Throws e, w1, [VaultRead file])
  | (Returns c, w1) =>
      match axios_post (upload_axios this) "/knowledge/" (upload_form file parentId c)
              upload_headers w1 with
      | (Throws e, w2) =>
          (Throws e, w2, [VaultRead file; upload_post_event this file parentId c])
      | (Returns r, w2) =>
          (Returns tt, w2,
           [VaultRead file; upload_post_event this file parentId c;
            Notice ("File uploaded successfully: " ++ TFile.name file) None])
      end
  end.
Proof.
  unfold uploadFile_try, addKnowledgeFile, bind, perform, notice, emit, ret,
    upload_post_event, upload_form, upload_headers, FormData_append.
  cbn [app].
  destruct (vault_read file w) as [[c|e] w1]; [|reflexivity].
  destruct (axios_post _ _ _ _ w1) as [[r|e] w2]; reflexivity.
Qed.

Lemma uploadFile_run (file : TFile.t) (parentId : option string) (w : World) :
  uploadFile this file parentId w =
  match uploadFile_try this file parentId w with
  | (Returns _, w1, t) => (Returns tt, w1, Enter_uploadFile file parentId :: t)
  | (Throws e, w1, t) =>
      (Returns tt, w1, Enter_uploadFile file parentId :: t ++ [upload_error_notice file e])%list
  end.
Proof.
  unfold uploadFile, bind, try_catch, emit.
  destruct (uploadFile_try this file parentId w) as [[[[]|e] w1] t]; reflexivity.
Qed.

(** A failing upload never escapes [uploadFile]. *)
Lemma uploadFile_returns (file : TFile.t) (parentId : option string) (w : World) :
  outcome (uploadFile this file parentId w) = Returns tt.
Proof.
  rewrite uploadFile_run.
  destruct (uploadFile_try this file parentId w) as [[[[]|e] w1] t]; reflexivity.
Qed.

Lemma uploadFile_try_quiet (file : TFile.t) (parentId : option string) (w : World) :
  let t := events (uploadFile_try this file parentId w) in
  upload_calls t = [] /\ create_folder_calls t = [] /\ listing_calls t = [].
Proof.
  rewrite uploadFile_try_run.
  destruct (vault_read file w) as [[c|e] w1]; [|repeat split].
  destruct (axios_post _ _ _ _ w1) as [[r|e] w2]; repeat split.
Qed.

Lemma uploadFile_trace (file : TFile.t) (parentId : option string) (w : World) :
  let t := events (uploadFile this file parentId w) in
  upload_calls t = [(file, parentId)] /\ create_folder_calls t = [] /\ listing_calls t = [].
Proof.
  pose proof (uploadFile_try_quiet file parentId w) as (Hu & Hc & Hl).
  rewrite uploadFile_run.
  destruct (uploadFile_try this file parentId w) as [[[[]|e] w1] t];
    cbn [events snd] in *; unfold upload_error_notice; observe;
    rewrite Hu, Hc, Hl; repeat split.
Qed.

Lemma upload_step_run (parentId : option string) (file : TFile.t) (w : World) :
  upload_step this parentId file w =
  (Returns tt, world_after (uploadFile this file parentId w),
   Notice ("Uploading file: " ++ TFile.name file) None
     :: events (uploadFile this file parentId w)).
Proof.
  unfold upload_step, bind, notice, emit.
  pose proof (uploadFile_returns file parentId w) as H.
  destruct (uploadFile this file parentId w) as [[r w1] t]. cbn in H. subst r. reflexivity.
Qed.

(** The loop attempts every document once, in order, with the same
    [parentId], and never throws. *)
Lemma upload_loop_trace (parentId : option string) (docs : list TFile.t) (w : World) :
  let r := for_of docs (upload_step this parentId) w in
  outcome r = Returns tt
  /\ upload_calls (events r) = map (fun f => (f, parentId)) docs
  /\ create_folder_calls (events r) = []
  /\ listing_calls (events r) = [].
Proof.
  revert w. induction docs as [|f docs IH]; intros w.
  - repeat split.
  - cbn [for_of]. rewrite bind_run, upload_step_run. cbn [outcome world_after events fst snd].
    specialize (IH (world_after (uploadFile this f parentId w))).
    destruct IH as (Ho & Hu & Hc & Hl).
    pose proof (uploadFile_trace f parentId w) as (Hu1 & Hc1 & Hl1).
    cbn zeta in *. observe.
    rewrite Hu1, Hu, Hc1, Hc, Hl1, Hl. repeat split. exact Ho.
Qed.

End Runs.

(** ** Listing, creation and reconciliation *)

Section Resolution.

Context {host : Host}.
Variable this : MyPlugin.
Local Open Scope js_scope.

Lemma fetchFiles_returns (w : World) :
  exists files, outcome (fetchFiles this w) = Returns files.
Proof.
  unfold fetchFiles, try_catch, bind, perform, notice, console_error, emit, ret.
  destruct (requestUrl (files_request this) w) as [[resp|e] w1]; cbn.
  - destruct (status resp =? 200); cbn; eauto.
  - eauto.
Qed.

Lemma fetchFiles_trace (w : World) :
  let t := events (fetchFiles this w) in
  upload_calls t = [] /\ create_folder_calls t = []
  /\ listing_calls t = [RequestUrl (files_request this)].
Proof.
  unfold fetchFiles, try_catch, bind, perform, notice, console_error, emit, ret.
  destruct (requestUrl (files_request this) w) as [[resp|e] w1]; cbn.
  - destruct (status resp =? 200); cbn; repeat split.
  - repeat split.
Qed.

(** The three ways a run of [createFolder] goes. *)
Lemma createFolder_run (folderName : string) (w : World) :
  createFolder this folderName w =
  match requestUrl (folder_request this folderName) w with
  | (Returns response, w1) =>
      if status response =? 200 then
        (Returns (Some (json_id (json response))), w1,
         [RequestUrl (folder_request this folderName);
          Notice ("Folder " ++ DQ ++ folderName ++ DQ ++ " created successfully with ID: "
                    ++ json_id (json response) ++ ".") None])
      else
        (Returns None, w1,
         [RequestUrl (folder_request this folderName);
          Notice ("Failed to create folder " ++ DQ ++ folderName ++ DQ ++ ".") None;
          NoticeJson (json response)])
  | (Throws error, w1) =>
      (Returns None, w1,
       [RequestUrl (folder_request this folderName);
        ConsoleError ("Error creating folder " ++ DQ ++ folderName ++ DQ ++ ":") (Some error);
        Notice ("Error creating folder " ++ DQ ++ folderName ++ DQ ++ ".") None])
  end.
Proof.
  unfold createFolder, try_catch, bind, perform, notice, console_error, emit, ret.
  destruct (requestUrl (folder_request this folderName) w) as [[resp|e] w1]; cbn.
  - destruct (status resp =? 200); reflexivity.
  - reflexivity.
Qed.

Lemma createFolder_trace (folderName : string) (w : World) :
  let r := createFolder this folderName w in
  (exists v, outcome r = Returns v)
  /\ upload_calls (events r) = []
  /\ create_folder_calls (events r) = [folder_request this folderName]
  /\ listing_calls (events r) = [].
Proof.
  rewrite createFolder_run.
  destruct (requestUrl (folder_request this folderName) w) as [[resp|e] w1].
  - destruct (status resp =? 200); cbn; repeat split; eauto.
  - cbn; repeat split; eauto.
Qed.

(** [find] returns the first element that satisfies the predicate. *)
Lemma find_first {A} (p : A -> bool) (l : list A) (x : A) :
  find p l = Some x <->
  exists pre post, l = (pre ++ x :: post)%list /\ p x = true
                   /\ forall y, In y pre -> p y = false.
Proof.
  split.
  - induction l as [|a l IH]; [discriminate|].
    cbn [find]. destruct (p a) eqn:Ha.
    + intros [= ->]. exists [], l. repeat split; [exact Ha | intros y []].
    + intros H. destruct (IH H) as (pre & post & -> & Hx & Hpre).
      exists (a :: pre), post. repeat split; [exact Hx|].
      intros y [<- | Hy]; [exact Ha | exact (Hpre y Hy)].
  - intros (pre & post & -> & Hx & Hpre).
    induction pre as [|a pre IH]; cbn [find app].
    + rewrite Hx. reflexivity.
    + rewrite (Hpre a (or_introl eq_refl)). apply IH.
      intros y Hy. apply Hpre. right. exact Hy.
Qed.

Lemma find_none_iff {A} (p : A -> bool) (l : list A) :
  find p l = None <-> forall y, In y l -> p y = false.
Proof.
  split.
  - intros H y Hy. exact (find_none p l H y Hy).
  - induction l as [|a l IH]; [reflexivity|]. intros H. cbn [find].
    rewrite (H a (or_introl eq_refl)). apply IH. intros y Hy. apply H. right. exact Hy.
Qed.

Lemma is_sync_folder_spec (file : RemoteItem.t) :
  is_sync_folder file = true <->
  RemoteItem.file_name file = "obsidian-sync" /\ RemoteItem.is_folder file = true.
Proof.
  unfold is_sync_folder. rewrite andb_true_iff, String.eqb_eq. reflexivity.
Qed.

Lemma reconcile_found (files : list RemoteItem.t) (existingFolder : RemoteItem.t) (w : World) :
  find is_sync_folder files = Some existingFolder ->
  reconcile this files w =
  (Returns (Some (RemoteItem.id existingFolder)), w,
   [Notice ("Found existing folder: " ++ RemoteItem.file_name existingFolder) None]).
Proof. unfold reconcile. intros ->. reflexivity. Qed.

Lemma reconcile_missing (files : list RemoteItem.t) (w : World) :
  find is_sync_folder files = None ->
  reconcile this files w =
  (outcome (createFolder this "obsidian-sync" w),
   world_after (createFolder this "obsidian-sync" w),
   Notice "Creating new folder in Quivr..." None
     :: events (createFolder this "obsidian-sync" w)).
Proof.
  unfold reconcile. intros ->. unfold bind, notice, emit.
  destruct (createFolder this "obsidian-sync" w) as [[r w1] t]. reflexivity.
Qed.

Lemma reconcile_trace (files : list RemoteItem.t) (w : World) :
  let r := reconcile this files w in
  (exists v, outcome r = Returns v)
  /\ upload_calls (events r) = []
  /\ create_folder_calls (events r)
     = (if existsb is_sync_folder files then [] else [folder_request this "obsidian-sync"])
  /\ listing_calls (events r) = [].
Proof.
  destruct (find is_sync_folder files) as [x|] eqn:Hfind.
  - rewrite (reconcile_found _ _ _ Hfind).
    assert (existsb is_sync_folder files = true) as ->.
    { apply existsb_exists. exists x. apply find_some in Hfind. exact Hfind. }
    cbn. repeat split. eauto.
  - rewrite (reconcile_missing _ _ Hfind).
    assert (existsb is_sync_folder files = false) as ->.
    { apply not_true_is_false. intros H. apply existsb_exists in H.
      destruct H as (x & Hx & Hp). rewrite (find_none _ _ Hfind x Hx) in Hp. discriminate. }
    pose proof (createFolder_trace "obsidian-sync" w) as (Ho & Hu & Hc & Hl).
    cbn zeta in *. cbn [outcome world_after events fst snd] in *. observe.
    rewrite Hu, Hc, Hl. repeat split. exact Ho.
Qed.

(** The items the listing of this run handed to the reconciliation. *)
Lemma resolveFolder_run (w : World) :
  exists files,
    outcome (fetchFiles this w) = Returns files
    /\ resolveFolder this w =
       (let r := reconcile this files (world_after (fetchFiles this w)) in
        (outcome r, world_after r,
         events (fetchFiles this w)
           ++ Notice ("Found Quivr files: " ++ join ", " (map RemoteItem.file_name files)) None
           :: events r))%list.
Proof.
  destruct (fetchFiles_returns w) as (files & Hf). exists files. split; [exact Hf|].
  unfold resolveFolder. rewrite bind_run, Hf. cbn zeta.
  rewrite bind_run. unfold notice, emit. cbn [outcome world_after events fst snd app].
  reflexivity.
Qed.

Lemma resolveFolder_trace (w : World) :
  exists files,
    outcome (fetchFiles this w) = Returns files
    /\ (exists v, outcome (resolveFolder this w) = Returns v)
    /\ upload_calls (events (resolveFolder this w)) = []
    /\ create_folder_calls (events (resolveFolder this w))
       = (if existsb is_sync_folder files then [] else [folder_request this "obsidian-sync"])
    /\ listing_calls (events (resolveFolder this w)) = [RequestUrl (files_request this)].
Proof.
  destruct (resolveFolder_run w) as (files & Hf & Hrun). exists files. split; [exact Hf|].
  rewrite Hrun. cbn zeta. cbn [outcome world_after events fst snd].
  pose proof (fetchFiles_trace w) as (Hu1 & Hc1 & Hl1).
  pose proof (reconcile_trace files (world_after (fetchFiles this w))) as (Ho & Hu & Hc & Hl).
  cbn zeta in *. observe. rewrite Hu1, Hc1, Hl1, Hu, Hc, Hl.
  repeat split. exact Ho.
Qed.

(** A run of the orchestrator is the resolution followed by the guarded
    loop over the documents enumerated at the start. *)
Lemma exploreAndUpload_run (w : World) :
  exists v,
    outcome (resolveFolder this w) = Returns v
    /\ exploreAndUpload this w =
       (let r := uploadAll this (vault_getMarkdownFiles w) v
                   (world_after (resolveFolder this w)) in
        (outcome r, world_after r, events (resolveFolder this w) ++ events r))%list.
Proof.
  destruct (resolveFolder_trace w) as (files & _ & (v & Hv) & _).
  exists v. split; [exact Hv|].
  unfold exploreAndUpload. rewrite bind_run, Hv. reflexivity.
Qed.

End Resolution.

(** ** The forms a run posts *)

Section Posts.

Context {host : Host}.
Variable this : MyPlugin.

Lemma uploadFile_posts (file : TFile.t) (parentId : option string) (w : World) :
  upload_posts (events (uploadFile this file parentId w)) = []
  \/ exists c, upload_posts (events (uploadFile this file parentId w))
               = [upload_form file parentId c].
Proof.
  rewrite uploadFile_run, uploadFile_try_run.
  destruct (vault_read file w) as [[c|e] w1]; [|left; reflexivity].
  destruct (axios_post _ _ _ _ w1) as [[r|e] w2]; right; exists c; reflexivity.
Qed.

(** Every form the loop posts is the form of one of its documents under
    the loop's [parentId], and there is at most one per document. *)
Lemma upload_loop_posts (parentId : option string) (docs : list TFile.t) (w : World) :
  let forms := upload_posts (events (for_of docs (upload_step this parentId) w)) in
  Forall (fun form => exists f c, In f docs /\ form = upload_form f parentId c) forms
  /\ (List.length forms <= List.length docs)%nat.
Proof.
  revert w. induction docs as [|f docs IH]; intros w.
  - split; [constructor|apply le_n].
  - cbn [for_of]. rewrite bind_run, upload_step_run. cbn [outcome world_after events fst snd].
    specialize (IH (world_after (uploadFile this f parentId w))).
    cbn zeta in IH. destruct IH as [IHall IHlen]. observe.
    assert (Htail : Forall (fun form => exists f0 c, In f0 (f :: docs)
                                          /\ form = upload_form f0 parentId c)
              (upload_posts (events (for_of docs (upload_step this parentId)
                 (world_after (uploadFile this f parentId w)))))).
    { eapply Forall_impl; [|exact IHall]. intros form (f0 & c & Hin & ->).
      exists f0, c. split; [right; exact Hin|reflexivity]. }
    destruct (uploadFile_posts f parentId w) as [-> | (c & ->)]; cbn [app List.length].
    + split; [exact Htail|]. apply le_S. exact IHlen.
    + split.
      * constructor; [|exact Htail]. exists f, c. split; [left|]; reflexivity.
      * apply le_n_S. exact IHlen.
Qed.

Lemma resolveFolder_posts (w : World) :
  upload_posts (events (resolveFolder this w)) = [].
Proof.
  destruct (resolveFolder_run this w) as (files & _ & ->).
  cbn zeta. cbn [events snd]. observe.
  assert (Hfetch : upload_posts (events (fetchFiles this w)) = []).
  { unfold fetchFiles, try_catch, bind, perform, notice, console_error, emit, ret.
    destruct (requestUrl (files_request this) w) as [[resp|e] w1]; cbn;
      [destruct (status resp =? 200)|]; reflexivity. }
  rewrite Hfetch. cbn [app].
  destruct (find is_sync_folder files) as [x|] eqn:Hfind.
  - rewrite (reconcile_found this _ _ _ Hfind). reflexivity.
  - rewrite (reconcile_missing this _ _ Hfind). cbn [events snd]. observe.
    rewrite createFolder_run.
    destruct (requestUrl (folder_request this "obsidian-sync") _) as [[resp|e] w1];
      [destruct (status resp =? 200)|]; reflexivity.
Qed.

End Posts.

(** * Properties of the sync routine *)

Section Reconciler.

Context {host : Host}.
Variable this : MyPlugin.

Lemma uploadAll_trace (docs : list TFile.t) (v : option string) (w : World) :
  let r := uploadAll this docs v w in
  outcome r = Returns tt
  /\ upload_calls (events r) = (if truthy v then map (fun f => (f, v)) docs else [])
  /\ create_folder_calls (events r) = []
  /\ listing_calls (events r) = [].
Proof.
  unfold uploadAll. destruct (truthy v).
  - apply upload_loop_trace.
  - repeat split.
Qed.

Lemma exploreAndUpload_create_folder_calls (w : World) :
  create_folder_calls (events (exploreAndUpload this w))
  = create_folder_calls (events (resolveFolder this w)).
Proof.
  destruct (exploreAndUpload_run this w) as (v & Hv & ->).
  cbn zeta. cbn [events snd]. observe.
  pose proof (uploadAll_trace (vault_getMarkdownFiles w) v
                (world_after (resolveFolder this w))) as (_ & _ & Hc & _).
  cbn zeta in Hc. rewrite Hc. apply app_nil_r.
Qed.

Lemma sync_folder_dec (y : RemoteItem.t) :
  ~ (RemoteItem.file_name y = "obsidian-sync" /\ RemoteItem.is_folder y = true)
  <-> is_sync_folder y = false.
Proof.
  rewrite <- is_sync_folder_spec. destruct (is_sync_folder y); split; intros H.
  - elim H. reflexivity.
  - discriminate.
  - reflexivity.
  - discriminate.
Qed.

(** C2. When the remote item list holds an item with [is_folder = true]
    and [file_name = "obsidian-sync"], the reconciliation step returns the
    id of the first such item in list order, changes nothing outside and
    issues no create-folder call; the whole invocation that got this list
    from its listing issues none either. *)
Theorem reconcile_reuses_first_match
    (files : list RemoteItem.t) (item : RemoteItem.t) (w : World)
    (Hin : In item files)
    (Hfolder : RemoteItem.is_folder item = true)
    (Hname : RemoteItem.file_name item = "obsidian-sync") :
  exists pre first post,
    files = (pre ++ first :: post)%list
    /\ (forall y, In y pre ->
          ~ (RemoteItem.file_name y = "obsidian-sync" /\ RemoteItem.is_folder y = true))
    /\ RemoteItem.file_name first = "obsidian-sync"
    /\ RemoteItem.is_folder first = true
    /\ outcome (reconcile this files w) = Returns (Some (RemoteItem.id first))
    /\ world_after (reconcile this files w) = w
    /\ create_folder_calls (events (reconcile this files w)) = []
    /\ (forall w0, outcome (fetchFiles this w0) = Returns files ->
          create_folder_calls (events (exploreAndUpload this w0)) = []).
Proof.
  destruct (find is_sync_folder files) as [first|] eqn:Hfind.
  - pose proof (proj1 (find_first _ _ _) Hfind) as (pre & post & Hfiles & Hfirst & Hpre).
    apply is_sync_folder_spec in Hfirst. destruct Hfirst as [Hn Hf].
    exists pre, first, post.
    rewrite (reconcile_found this _ _ w Hfind).
    repeat split; try assumption.
    + intros y Hy. apply sync_folder_dec. exact (Hpre y Hy).
    + intros w0 Hw0.
      rewrite exploreAndUpload_create_folder_calls.
      destruct (resolveFolder_trace this w0) as (files' & Hf' & _ & _ & Hc & _).
      rewrite Hw0 in Hf'. injection Hf' as <-.
      rewrite Hc.
      assert (existsb is_sync_folder files = true) as ->; [|reflexivity].
      apply existsb_exists. exists first. split; [|apply is_sync_folder_spec; auto].
      rewrite Hfiles. apply in_elt.
  - exfalso. pose proof (find_none _ _ Hfind item Hin) as Hno.
    apply sync_folder_dec in Hno. apply Hno. auto.
Qed.

(** C10. The predicate of the reconciliation does not look at
    [parent_id]: an item named "obsidian-sync" with [is_folder = true] whose
    [parent_id] is not null (a nested folder) is matched like a top-level
    one; when it is the first match its id is reused and no folder is
    created. *)
Theorem reconcile_ignores_parent_id
    (pre post : list RemoteItem.t) (item : RemoteItem.t) (p : string) (w : World)
    (Hpre : forall y, In y pre -> is_sync_folder y = false)
    (Hname : RemoteItem.file_name item = "obsidian-sync")
    (Hfolder : RemoteItem.is_folder item = true)
    (Hparent : RemoteItem.parent_id item = Some p) :
  is_sync_folder item = true
  /\ (forall q, is_sync_folder
                  (RemoteItem.make (RemoteItem.id item) (RemoteItem.file_name item)
                     (RemoteItem.is_folder item) q) = is_sync_folder item)
  /\ outcome (reconcile this (pre ++ item :: post) w) = Returns (Some (RemoteItem.id item))
  /\ create_folder_calls (events (reconcile this (pre ++ item :: post) w)) = [].
Proof.
  assert (Hitem : is_sync_folder item = true) by (apply is_sync_folder_spec; auto).
  assert (Hfind : find is_sync_folder (pre ++ item :: post) = Some item).
  { apply find_first. exists pre, post. auto. }
  rewrite (reconcile_found this _ _ w Hfind).
  repeat split; try assumption.
Qed.

(** C3. When no item of the remote list has [is_folder = true] and
    [file_name = "obsidian-sync"], the reconciliation step issues exactly
    one create-folder call, whose knowledge data is
    [{parent_id: null, file_name: "obsidian-sync", is_folder: true}], and
    returns the id of the answer when its status is 200 and null when the
    status differs or the request throws. *)
Theorem reconcile_creates_once
    (files : list RemoteItem.t) (w : World)
    (Hnone : forall y, In y files ->
               ~ (RemoteItem.file_name y = "obsidian-sync" /\ RemoteItem.is_folder y = true)) :
  create_folder_calls (events (reconcile this files w)) = [folder_request this "obsidian-sync"]
  /\ body (folder_request this "obsidian-sync")
     = Some (part_open ++ JSON.stringify (mkKnowledgeData None "obsidian-sync" true)
               ++ part_close)
  /\ body_knowledge (body (folder_request this "obsidian-sync"))
     = Some (mkKnowledgeData None "obsidian-sync" true)
  /\ outcome (reconcile this files w)
     = match requestUrl (folder_request this "obsidian-sync") w with
       | (Returns response, _) =>
           if status response =? 200 then Returns (Some (json_id (json response)))
           else Returns None
       | (Throws _, _) => Returns None
       end.
Proof.
  assert (Hfind : find is_sync_folder files = None).
  { apply find_none_iff. intros y Hy. apply sync_folder_dec. exact (Hnone y Hy). }
  rewrite (reconcile_missing this _ w Hfind).
  cbn [outcome world_after events fst snd]. observe.
  pose proof (createFolder_trace this "obsidian-sync" w) as (_ & _ & Hc & _).
  cbn zeta in Hc. rewrite Hc.
  split; [reflexivity|]. split; [reflexivity|]. split; [vm_compute; reflexivity|].
  rewrite createFolder_run.
  destruct (requestUrl (folder_request this "obsidian-sync") w) as [[resp|e] w1];
    [destruct (status resp =? 200)|]; reflexivity.
Qed.

End Reconciler.

Section Listing.

Context {host : Host}.
Variable this : MyPlugin.

(** C7. [fetchFiles] never throws to its caller. When the listing is
    answered with status 200 it returns the items of the answer; when it is
    answered with another status it raises a notice, logs the failure and
    returns the empty sequence; when the request throws it logs the error,
    raises a notice and returns the empty sequence. *)
Theorem fetchFiles_never_raises (w : World) :
  match requestUrl (files_request this) w with
  | (Returns response, w1) =>
      if status response =? 200 then
        fetchFiles this w
        = (Returns (json_files (json response)), w1, [RequestUrl (files_request this)])
      else
        fetchFiles this w
        = (Returns [], w1,
           [RequestUrl (files_request this);
            Notice ("Failed to fetch files: " ++ Number_toString (status response)
                      ++ " " ++ json_toString (json response)) None;
            ConsoleError ("Failed to fetch files: " ++ Number_toString (status response)
                            ++ " " ++ json_toString (json response)) None])
  | (Throws error, w1) =>
      fetchFiles this w
      = (Returns [], w1,
         [RequestUrl (files_request this);
          ConsoleError "Error fetching files:" (Some error);
          Notice "Error fetching files. Check console for details." None])
  end.
Proof.
  unfold fetchFiles, try_catch, bind, perform, notice, console_error, emit, ret.
  destruct (requestUrl (files_request this) w) as [[resp|e] w1]; cbn.
  - destruct (status resp =? 200); reflexivity.
  - reflexivity.
Qed.

End Listing.

Section Orchestrator.

Context {host : Host}.
Variable this : MyPlugin.

(** C1, as the code has it. When folder resolution yields an id that is
    neither null nor the empty string, the orchestrator issues exactly one
    upload call per local document, in enumeration order, each with the
    resolved id as parent id, whatever the uploads answer; every form these
    calls post carries that id as [parent_id]. With no local document it
    issues no upload call. In every run it issues exactly one listing call,
    and a create-folder call exactly when the listing it got holds no
    match. *)
Theorem exploreAndUpload_upload_calls (w : World) :
  let docs := vault_getMarkdownFiles w in
  let t := events (exploreAndUpload this w) in
  (forall id, outcome (resolveFolder this w) = Returns (Some id) -> id <> "" ->
     outcome (exploreAndUpload this w) = Returns tt
     /\ upload_calls t = map (fun f => (f, Some id)) docs
     /\ List.length (upload_calls t) = List.length docs
     /\ Forall (fun form => exists f c, In f docs /\ form = upload_form f (Some id) c)
          (upload_posts t))
  /\ (docs = [] -> upload_calls t = [])
  /\ listing_calls t = [RequestUrl (files_request this)]
  /\ exists files,
       outcome (fetchFiles this w) = Returns files
       /\ create_folder_calls t
          = if existsb is_sync_folder files then []
            else [folder_request this "obsidian-sync"].
Proof.
  cbn zeta.
  destruct (exploreAndUpload_run this w) as (v & Hv & Hrun).
  destruct (resolveFolder_trace this w) as (files & Hf & _ & Hu & Hc & Hl).
  pose proof (resolveFolder_posts this w) as Hp.
  pose proof (uploadAll_trace this (vault_getMarkdownFiles w) v
                (world_after (resolveFolder this w))) as (Ho2 & Hu2 & Hc2 & Hl2).
  cbn zeta in *. rewrite Hrun. cbn [outcome events fst snd]. observe.
  rewrite Hu, Hc, Hl, Hp, Hu2, Hc2, Hl2, !app_nil_r. cbn [app].
  split; [|split; [|split]].
  - intros id Hid Hne. rewrite Hv in Hid. injection Hid as ->.
    assert (Htruthy : truthy (Some id) = true).
    { cbn. destruct (String.eqb_spec id ""); [contradiction|reflexivity]. }
    rewrite Htruthy.
    split; [exact Ho2|]. split; [reflexivity|]. split; [apply length_map|].
    unfold uploadAll. rewrite Htruthy. apply upload_loop_posts.
  - intros ->. destruct (truthy v); reflexivity.
  - reflexivity.
  - exists files. split; [exact Hf|reflexivity].
Qed.

(** C5. When folder resolution yields null, which happens only when the
    listing held no match and the creation returned null, the orchestrator
    issues no upload call: after the resolution it only raises the failure
    notice. *)
Theorem exploreAndUpload_no_folder_no_upload (w : World)
    (Hnull : outcome (resolveFolder this w) = Returns None) :
  upload_calls (events (exploreAndUpload this w)) = []
  /\ upload_posts (events (exploreAndUpload this w)) = []
  /\ exploreAndUpload this w
     = (Returns tt, world_after (resolveFolder this w),
        events (resolveFolder this w)
          ++ [Notice "Failed to determine folder ID for uploads." None])%list
  /\ exists files,
       outcome (fetchFiles this w) = Returns files
       /\ find is_sync_folder files = None
       /\ outcome (createFolder this "obsidian-sync" (world_after (fetchFiles this w)))
          = Returns None.
Proof.
  destruct (exploreAndUpload_run this w) as (v & Hv & Hrun).
  rewrite Hv in Hnull. injection Hnull as ->.
  assert (Hrun' : exploreAndUpload this w
     = (Returns tt, world_after (resolveFolder this w),
        events (resolveFolder this w)
          ++ [Notice "Failed to determine folder ID for uploads." None])%list)
    by (rewrite Hrun; reflexivity).
  split; [|split; [|split; [exact Hrun'|]]].
  - rewrite Hrun'. cbn [events snd]. observe.
    destruct (resolveFolder_trace this w) as (files & _ & _ & Hu & _).
    rewrite Hu. reflexivity.
  - rewrite Hrun'. cbn [events snd]. observe.
    rewrite resolveFolder_posts. reflexivity.
  - destruct (resolveFolder_run this w) as (files & Hf & Hres).
    exists files. split; [exact Hf|].
    rewrite Hres in Hv. cbn zeta in Hv. cbn [outcome fst] in Hv.
    destruct (find is_sync_folder files) as [x|] eqn:Hfind.
    + rewrite (reconcile_found this _ _ _ Hfind) in Hv. discriminate.
    + rewrite (reconcile_missing this _ _ Hfind) in Hv. cbn [fst] in Hv.
      split; [reflexivity|exact Hv].
Qed.

(** What one upload attempt does, by what the host answers: the method is
    entered and the document read; a form is posted exactly when the read
    returns; a throw of the read or of the POST ends in the error notice,
    a POST that returns in the success notice. *)
Lemma uploadFile_attempt (file : TFile.t) (parentId : option string) (w : World) :
  match vault_read file w with
  | (Throws e, w1) =>
      uploadFile this file parentId w
      = (Returns tt, w1,
         [Enter_uploadFile file parentId; VaultRead file; upload_error_notice file e])
  | (Returns c, w1) =>
      match axios_post (upload_axios this) "/knowledge/" (upload_form file parentId c)
              upload_headers w1 with
      | (Throws e, w2) =>
          uploadFile this file parentId w
          = (Returns tt, w2,
             [Enter_uploadFile file parentId; VaultRead file;
              upload_post_event this file parentId c; upload_error_notice file e])
      | (Returns r, w2) =>
          uploadFile this file parentId w
          = (Returns tt, w2,
             [Enter_uploadFile file parentId; VaultRead file;
              upload_post_event this file parentId c;
              Notice ("File uploaded successfully: " ++ TFile.name file) None])
      end
  end.
Proof.
  rewrite uploadFile_run, uploadFile_try_run.
  destruct (vault_read file w) as [[c|e] w1]; [|reflexivity].
  destruct (axios_post _ _ _ _ w1) as [[r|e] w2]; reflexivity.
Qed.

Lemma uploadFile_reads (file : TFile.t) (parentId : option string) (w : World) :
  vault_reads (events (uploadFile this file parentId w)) = [file].
Proof.
  pose proof (uploadFile_attempt file parentId w) as H.
  destruct (vault_read file w) as [[c|e] w1]; [|rewrite H; reflexivity].
  destruct (axios_post _ _ _ _ w1) as [[r|e] w2]; rewrite H; reflexivity.
Qed.

(** The loop reads every document exactly once, in order. *)
Lemma upload_loop_reads (parentId : option string) (docs : list TFile.t) (w : World) :
  vault_reads (events (for_of docs (upload_step this parentId) w)) = docs.
Proof.
  revert w. induction docs as [|f docs IH]; intros w; [reflexivity|].
  cbn [for_of]. rewrite bind_run, upload_step_run. cbn [outcome world_after events fst snd].
  pose proof (uploadFile_reads f parentId w) as Hr.
  specialize (IH (world_after (uploadFile this f parentId w))).
  unfold vault_reads in *. cbn [flat_map vault_read_of app].
  rewrite flat_map_app, Hr, IH. reflexivity.
Qed.

(** C4, as the code has it. A failure of the upload at any position of the
    loop never leaves [uploadFile]. A thrown error, of the read or of the
    POST (which throws on a status outside 2xx), is caught and ends in the
    error notice. An answer that the POST returns with a status other than
    200 is not caught: nothing was thrown, and the upload is reported as a
    success. In each case the call returns and the loop goes on from the
    world the failed attempt left: every later document is attempted exactly
    once, in order, that is entered, read, and posted when its read
    returns. *)
Theorem upload_failure_isolated
    (parentId : option string) (pre post : list TFile.t) (file : TFile.t) (w : World)
    (Hid : truthy parentId = true)
    (Hfail : upload_fails this file parentId
               (world_after (for_of pre (upload_step this parentId) w))) :
  let w_i := world_after (for_of pre (upload_step this parentId) w) in
  let w_next := world_after (uploadFile this file parentId w_i) in
  let later := events (for_of post (upload_step this parentId) w_next) in
  let all := events (uploadAll this (pre ++ file :: post) parentId w) in
  match vault_read file w_i with
  | (Throws e, w1) =>
      uploadFile this file parentId w_i
      = (Returns tt, w1,
         [Enter_uploadFile file parentId; VaultRead file; upload_error_notice file e])
  | (Returns c, w1) =>
      match axios_post (upload_axios this) "/knowledge/" (upload_form file parentId c)
              upload_headers w1 with
      | (Throws e, w2) =>
          uploadFile this file parentId w_i
          = (Returns tt, w2,
             [Enter_uploadFile file parentId; VaultRead file;
              upload_post_event this file parentId c; upload_error_notice file e])
      | (Returns r, w2) =>
          axios_status r <> 200
          /\ outcome (uploadFile_try this file parentId w_i) = Returns tt
          /\ uploadFile this file parentId w_i
             = (Returns tt, w2,
                [Enter_uploadFile file parentId; VaultRead file;
                 upload_post_event this file parentId c;
                 Notice ("File uploaded successfully: " ++ TFile.name file) None])
      end
  end
  /\ outcome (uploadAll this (pre ++ file :: post) parentId w) = Returns tt
  /\ all = (events (for_of pre (upload_step this parentId) w)
              ++ events (upload_step this parentId file w_i) ++ later)%list
  /\ upload_calls later = map (fun f => (f, parentId)) post
  /\ vault_reads later = post
  /\ (forall g w',
        match vault_read g w' with
        | (Throws e, w1) =>
            uploadFile this g parentId w'
            = (Returns tt, w1,
               [Enter_uploadFile g parentId; VaultRead g; upload_error_notice g e])
        | (Returns c, w1) =>
            exists tail,
              events (uploadFile this g parentId w')
              = [Enter_uploadFile g parentId; VaultRead g;
                 upload_post_event this g parentId c; tail]
        end)
  /\ upload_calls all = map (fun f => (f, parentId)) (pre ++ file :: post)
  /\ vault_reads all = (pre ++ file :: post)%list.
Proof.
  cbn zeta.
  set (w_i := world_after (for_of pre (upload_step this parentId) w)) in *.
  set (w_next := world_after (uploadFile this file parentId w_i)).
  pose proof (upload_loop_trace this parentId pre w) as (Hpre & _).
  pose proof (upload_loop_trace this parentId post w_next) as (Hpost & Hupost & _).
  pose proof (uploadAll_trace this (pre ++ file :: post) parentId w) as (Hall & Huall & _).
  cbn zeta in *. rewrite Hid in Huall.
  assert (Hsplit : events (uploadAll this (pre ++ file :: post) parentId w)
     = (events (for_of pre (upload_step this parentId) w)
          ++ events (upload_step this parentId file w_i)
          ++ events (for_of post (upload_step this parentId) w_next))%list).
  { unfold uploadAll. rewrite Hid, for_of_app, bind_run, Hpre.
    cbn zeta. cbn [events snd for_of]. fold w_i.
    rewrite bind_run, upload_step_run. cbn [outcome world_after events fst snd].
    reflexivity. }
  split.
  { unfold upload_fails in Hfail.
    pose proof (uploadFile_attempt file parentId w_i) as Hrun.
    pose proof (uploadFile_try_run this file parentId w_i) as Htry.
    destruct (vault_read file w_i) as [[c|e] w1]; [|exact Hrun].
    destruct (axios_post (upload_axios this) "/knowledge/" (upload_form file parentId c)
                upload_headers w1) as [[r|e] w2]; [|exact Hrun].
    split; [exact Hfail|]. split; [rewrite Htry; reflexivity|exact Hrun]. }
  split; [exact Hall|]. split; [exact Hsplit|]. split; [exact Hupost|].
  split; [apply upload_loop_reads|]. split.
  { intros g w'. pose proof (uploadFile_attempt g parentId w') as Hrun.
    destruct (vault_read g w') as [[c|e] w1]; [|exact Hrun].
    destruct (axios_post (upload_axios this) "/knowledge/" (upload_form g parentId c)
                upload_headers w1) as [[r|e] w2]; rewrite Hrun; eexists; reflexivity. }
  split; [exact Huall|].
  unfold uploadAll. rewrite Hid. apply upload_loop_reads.
Qed.

(** Whenever the listing fails, by a throw or by a status other than 200,
    the run issues a create-folder call, whatever the service holds. *)
Lemma listing_failure_creates_folder (w : World) :
  match requestUrl (files_request this) w with
  | (Returns response, _) => status response <> 200
  | (Throws _, _) => True
  end ->
  outcome (fetchFiles this w) = Returns []
  /\ create_folder_calls (events (exploreAndUpload this w))
     = [folder_request this "obsidian-sync"].
Proof.
  intros Hfail.
  assert (Hnil : outcome (fetchFiles this w) = Returns []).
  { unfold fetchFiles, try_catch, bind, perform, notice, console_error, emit, ret.
    destruct (requestUrl (files_request this) w) as [[resp|e] w1]; cbn; [|reflexivity].
    destruct (Z.eqb_spec (status resp) 200); [contradiction|reflexivity]. }
  split; [exact Hnil|].
  rewrite exploreAndUpload_create_folder_calls.
  destruct (resolveFolder_trace this w) as (files & Hf & _ & _ & Hc & _).
  rewrite Hnil in Hf. injection Hf as <-. exact Hc.
Qed.

End Orchestrator.

(** ** The text of the requests *)

Section RequestText.

Context {host : Host}.

(** For a name that needs no escape, the text [createFolder] splices is
    the JSON text of the knowledge data. *)
Lemma folder_knowledge_text_plain (folderName : string) :
  JSON.plain folderName = true ->
  folder_knowledge_text folderName
  = JSON.stringify (mkKnowledgeData None folderName true).
Proof.
  intros Hplain. unfold folder_knowledge_text, JSON.stringify, JSON.quote.
  cbn [kd_parent_id kd_file_name kd_is_folder].
  rewrite (escape_plain _ Hplain).
  rewrite !StrFacts.app_assoc. reflexivity.
Qed.

(** The form of an upload reads back as the knowledge data it was built
    from, and its file part holds the bytes of the content. *)
Lemma upload_form_round_trip (file : TFile.t) (parentId : option string) (content : string) :
  exists text f,
    upload_form file parentId content
    = [("knowledge_data", FormString text); ("file", FormFile f)]
    /\ JSON.parse text
       = Some (mkKnowledgeData parentId (TFile.name file) false)
    /\ file_bits f = list_byte_of_string content
    /\ file_name f = TFile.name file.
Proof.
  eexists _, _. split; [reflexivity|]. split; [apply parse_stringify|].
  split; [|reflexivity].
  cbn. rewrite !app_nil_r. reflexivity.
Qed.

End RequestText.

(** ** Runs against the simulated service *)

(** The folder exists under the id [f1]; three documents, the upload of the
    second is refused: three upload calls all the same. *)
Lemma exploreAndUpload_upload_calls_witness :
  outcome (resolveFolder (host := Sim.host) Sim.plugin Sim.w_folder) = Returns (Some "f1")
  /\ "f1" <> ""
  /\ upload_calls (events (exploreAndUpload (host := Sim.host) Sim.plugin Sim.w_folder))
     = [(Sim.notes, Some "f1"); (Sim.todo, Some "f1"); (Sim.diary, Some "f1")].
Proof.
  assert (H1 : outcome (resolveFolder (host := Sim.host) Sim.plugin Sim.w_folder)
               = Returns (Some "f1")) by (vm_compute; reflexivity).
  assert (H2 : "f1" <> "") by discriminate.
  split; [exact H1|]. split; [exact H2|].
  exact (proj1 (proj2 (proj1
           (exploreAndUpload_upload_calls (host := Sim.host) Sim.plugin Sim.w_folder)
           "f1" H1 H2))).
Defined.

(** A resolved id that is not null does not suffice: here the resolution
    yields the empty string, there is one local document, and no upload
    call is issued. *)
Lemma upload_calls_empty_id_counterexample :
  outcome (resolveFolder (host := Sim.host) Sim.plugin Sim.w_empty_id) = Returns (Some "")
  /\ vault_getMarkdownFiles (Host := Sim.host) Sim.w_empty_id = [Sim.notes]
  /\ upload_calls (events (exploreAndUpload (host := Sim.host) Sim.plugin Sim.w_empty_id)) = []
  /\ List.length
       (upload_calls (events (exploreAndUpload (host := Sim.host) Sim.plugin Sim.w_empty_id)))
     <> List.length (vault_getMarkdownFiles (Host := Sim.host) Sim.w_empty_id).
Proof.
  split; [vm_compute; reflexivity|]. split; [reflexivity|].
  split; [vm_compute; reflexivity|]. vm_compute. discriminate.
Qed.

(** Two folders of that name; the first in list order wins. *)
Lemma reconcile_reuses_first_match_witness :
  In (Sim.sync_folder "f1" None) (Sim.remote Sim.w_nested)
  /\ RemoteItem.is_folder (Sim.sync_folder "f1" None) = true
  /\ RemoteItem.file_name (Sim.sync_folder "f1" None) = "obsidian-sync"
  /\ outcome (reconcile (host := Sim.host) Sim.plugin (Sim.remote Sim.w_nested) Sim.w_nested)
     = Returns (Some "n1")
  /\ create_folder_calls
       (events (reconcile (host := Sim.host) Sim.plugin (Sim.remote Sim.w_nested) Sim.w_nested))
     = [].
Proof.
  assert (H1 : In (Sim.sync_folder "f1" None) (Sim.remote Sim.w_nested))
    by (simpl; auto).
  split; [exact H1|]. split; [reflexivity|]. split; [reflexivity|].
  destruct (reconcile_reuses_first_match (host := Sim.host) Sim.plugin
              (Sim.remote Sim.w_nested) (Sim.sync_folder "f1" None) Sim.w_nested
              H1 eq_refl eq_refl)
    as (pre & first & post & _ & _ & _ & _ & _ & _ & Hcalls & _).
  split; [vm_compute; reflexivity|exact Hcalls].
Defined.

(** The service holds one unrelated folder: one creation, whose id is
    returned. *)
Lemma reconcile_creates_once_witness :
  (forall y, In y [Sim.archive] ->
     ~ (RemoteItem.file_name y = "obsidian-sync" /\ RemoteItem.is_folder y = true))
  /\ create_folder_calls
       (events (reconcile (host := Sim.host) Sim.plugin [Sim.archive] Sim.w_fresh))
     = [folder_request Sim.plugin "obsidian-sync"]
  /\ outcome (reconcile (host := Sim.host) Sim.plugin [Sim.archive] Sim.w_fresh)
     = Returns (Some "id-1").
Proof.
  assert (H : forall y, In y [Sim.archive] ->
     ~ (RemoteItem.file_name y = "obsidian-sync" /\ RemoteItem.is_folder y = true)).
  { simpl. intros y [<- | []] [Hn _]. discriminate Hn. }
  split; [exact H|].
  split.
  - exact (proj1 (reconcile_creates_once (host := Sim.host) Sim.plugin
                    [Sim.archive] Sim.w_fresh H)).
  - vm_compute. reflexivity.
Defined.

(** The first match is nested under the item [a]: its id is reused. *)
Lemma reconcile_ignores_parent_id_witness :
  RemoteItem.parent_id (Sim.sync_folder "n1" (Some "a")) = Some "a"
  /\ outcome (reconcile (host := Sim.host) Sim.plugin
                ([Sim.archive] ++ Sim.sync_folder "n1" (Some "a") :: [Sim.sync_folder "f1" None])
                Sim.w_nested)
     = Returns (Some "n1").
Proof.
  split; [reflexivity|].
  refine (proj1 (proj2 (proj2
    (reconcile_ignores_parent_id (host := Sim.host) Sim.plugin
       [Sim.archive] [Sim.sync_folder "f1" None] (Sim.sync_folder "n1" (Some "a")) "a"
       Sim.w_nested _ eq_refl eq_refl eq_refl)))).
  simpl. intros y [<- | []]. reflexivity.
Defined.

(** The listing answers 503 and the creation is rejected: no upload. *)
Lemma exploreAndUpload_no_folder_no_upload_witness :
  outcome (resolveFolder (host := Sim.host) Sim.plugin Sim.w_down) = Returns None
  /\ upload_calls (events (exploreAndUpload (host := Sim.host) Sim.plugin Sim.w_down)) = [].
Proof.
  assert (H : outcome (resolveFolder (host := Sim.host) Sim.plugin Sim.w_down) = Returns None)
    by (vm_compute; reflexivity).
  split; [exact H|].
  exact (proj1 (exploreAndUpload_no_folder_no_upload (host := Sim.host)
                  Sim.plugin Sim.w_down H)).
Defined.

(** The upload of the second of three documents is refused by the
    service; the third is still entered, read and posted. *)
Lemma upload_failure_isolated_witness :
  truthy (Some "f1") = true
  /\ upload_fails (host := Sim.host) Sim.plugin Sim.todo (Some "f1")
       (world_after (for_of (host := Sim.host) [Sim.notes]
                       (upload_step Sim.plugin (Some "f1")) Sim.w_folder))
  /\ vault_reads
       (events (for_of (host := Sim.host) [Sim.diary]
          (upload_step (host := Sim.host) Sim.plugin (Some "f1"))
          (world_after (uploadFile (host := Sim.host) Sim.plugin Sim.todo (Some "f1")
             (world_after (for_of (host := Sim.host) [Sim.notes]
                             (upload_step Sim.plugin (Some "f1")) Sim.w_folder))))))
     = [Sim.diary]
  /\ upload_posts
       (events (for_of (host := Sim.host) [Sim.diary]
          (upload_step (host := Sim.host) Sim.plugin (Some "f1"))
          (world_after (uploadFile (host := Sim.host) Sim.plugin Sim.todo (Some "f1")
             (world_after (for_of (host := Sim.host) [Sim.notes]
                             (upload_step Sim.plugin (Some "f1")) Sim.w_folder))))))
     = [upload_form Sim.diary (Some "f1") "today"].
Proof.
  assert (H1 : truthy (Some "f1") = true) by reflexivity.
  assert (H2 : upload_fails (host := Sim.host) Sim.plugin Sim.todo (Some "f1")
       (world_after (for_of (host := Sim.host) [Sim.notes]
                       (upload_step Sim.plugin (Some "f1")) Sim.w_folder)))
    by (vm_compute; exact I).
  split; [exact H1|]. split; [exact H2|]. split.
  - exact (proj1 (proj2 (proj2 (proj2 (proj2
      (upload_failure_isolated (host := Sim.host) Sim.plugin (Some "f1")
         [Sim.notes] [Sim.diary] Sim.todo Sim.w_folder H1 H2)))))).
  - vm_compute. reflexivity.
Defined.

(** A failure that is not caught: the POST for [notes.md] returns with
    status 201. The upload fails in the sense of an answer other than 200,
    yet the [try] block returns, so the [catch] is not entered: the trace
    is that of a success and holds no error notice. *)
Lemma upload_answer_201_not_caught_counterexample :
  upload_fails (host := Sim201.host) Sim.plugin Sim.notes (Some "f1") Sim.w_folder
  /\ (exists w2 item,
        axios_post (Host := Sim201.host) (upload_axios Sim.plugin) "/knowledge/"
          (upload_form Sim.notes (Some "f1") "# Hello") upload_headers Sim.w_folder
        = (Returns {| axios_status := 201; data := Sim.JItem item |}, w2))
  /\ outcome (uploadFile_try (host := Sim201.host) Sim.plugin Sim.notes (Some "f1")
                Sim.w_folder) = Returns tt
  /\ events (uploadFile (host := Sim201.host) Sim.plugin Sim.notes (Some "f1") Sim.w_folder)
     = [Enter_uploadFile Sim.notes (Some "f1"); VaultRead Sim.notes;
        upload_post_event (host := Sim201.host) Sim.plugin Sim.notes (Some "f1") "# Hello";
        Notice "File uploaded successfully: notes.md" None]
  /\ ~ (exists e : string,
          In (upload_error_notice (host := Sim201.host) Sim.notes e)
             (events (uploadFile (host := Sim201.host) Sim.plugin Sim.notes (Some "f1")
                        Sim.w_folder))).
Proof.
  split; [vm_compute; discriminate|].
  split; [eexists _, _; vm_compute; reflexivity|].
  split; [vm_compute; reflexivity|].
  assert (Hev : events (uploadFile (host := Sim201.host) Sim.plugin Sim.notes (Some "f1")
                          Sim.w_folder)
     = [Enter_uploadFile Sim.notes (Some "f1"); VaultRead Sim.notes;
        upload_post_event (host := Sim201.host) Sim.plugin Sim.notes (Some "f1") "# Hello";
        Notice "File uploaded successfully: notes.md" None])
    by reflexivity.
  split; [exact Hev|].
  intros (e & Hin). rewrite Hev in Hin. unfold upload_error_notice, upload_post_event in Hin.
  destruct Hin as [H | [H | [H | [H | []]]]]; discriminate H.
Qed.

(** C6. The service holds the folder "obsidian-sync" under the id [f1],
    but the listing request is rejected: [fetchFiles] returns the empty
    sequence, the reconciliation finds no match and issues a create-folder
    call, and the service ends up holding two folders of that name. *)
Theorem listing_failure_duplicates_folder :
  filter is_sync_folder (Sim.remote Sim.w_listing_down) = [Sim.sync_folder "f1" None]
  /\ outcome (fetchFiles (host := Sim.host) Sim.plugin Sim.w_listing_down) = Returns []
  /\ create_folder_calls
       (events (exploreAndUpload (host := Sim.host) Sim.plugin Sim.w_listing_down))
     = [folder_request Sim.plugin "obsidian-sync"]
  /\ filter is_sync_folder
       (Sim.remote (world_after
          (exploreAndUpload (host := Sim.host) Sim.plugin Sim.w_listing_down)))
     = [Sim.sync_folder "f1" None; Sim.sync_folder "id-1" None].
Proof. vm_compute. repeat split. Qed.

(** C8. For a folder name holding a double quote the text [createFolder] puts in the
    [knowledge_data] part is the name spliced as it is: it differs from the
    JSON text of [{parent_id: null, file_name: name, is_folder: true}] and
    does not read back as JSON, whereas the JSON text does. The simulated
    service answers such a request with status 422 and [createFolder]
    returns null. *)
Theorem createFolder_splices_name_unescaped :
  body (folder_request Sim.plugin Sim.quoted_name)
  = Some (part_open ++ folder_knowledge_text Sim.quoted_name ++ part_close)
  /\ create_folder_calls
       (events (createFolder (host := Sim.host) Sim.plugin Sim.quoted_name Sim.w_fresh))
     = [folder_request Sim.plugin Sim.quoted_name]
  /\ folder_knowledge_text Sim.quoted_name
     <> JSON.stringify (mkKnowledgeData None Sim.quoted_name true)
  /\ JSON.parse (folder_knowledge_text Sim.quoted_name) = None
  /\ JSON.parse (JSON.stringify (mkKnowledgeData None Sim.quoted_name true))
     = Some (mkKnowledgeData None Sim.quoted_name true)
  /\ outcome (createFolder (host := Sim.host) Sim.plugin Sim.quoted_name Sim.w_fresh)
     = Returns None.
Proof.
  split; [reflexivity|]. split; [vm_compute; reflexivity|].
  split; [vm_compute; discriminate|]. split; [vm_compute; reflexivity|].
  split; [apply parse_stringify|]. vm_compute. reflexivity.
Qed.

(** C9. Uploading [notes.md] with content [# Hello] under the folder id
    [f1] posts a form whose [knowledge_data] reads back as
    [{parent_id: "f1", file_name: "notes.md", is_folder: false}] and whose
    file holds the bytes of the content; the blob was given the type
    [text/markdown], but the file built from it carries the empty type. *)
Theorem upload_file_part_has_no_type :
  exists text f,
    upload_posts (events (uploadFile (host := Sim.host) Sim.plugin Sim.notes (Some "f1")
                            Sim.w_folder))
    = [[("knowledge_data", FormString text); ("file", FormFile f)]]
    /\ JSON.parse text = Some (mkKnowledgeData (Some "f1") "notes.md" false)
    /\ file_bits f = list_byte_of_string "# Hello"
    /\ file_name f = "notes.md"
    /\ blob_type (upload_blob Sim.notes "# Hello") = "text/markdown"
    /\ file_type f = ""
    /\ file_type f <> "text/markdown".
Proof.
  eexists _, _. split; [vm_compute; reflexivity|].
  split; [vm_compute; reflexivity|].
  repeat split. discriminate.
Qed.

(** * More properties of the plugin *)

Section Uploads.

Context {host : Host}.
Variable this : MyPlugin.

(** X1. [addKnowledgeFile] issues exactly one POST, to [/knowledge/], of a
    form with the entries [knowledge_data] and [file] in this order; the
    text of [knowledge_data] reads back as the knowledge data given, for
    every knowledge data, and the file entry is the file given. It returns
    the data of the answer, and what the POST throws it throws on. *)
Theorem addKnowledgeFile_round_trip
    (knowledgeData : AddKnowledgeFileData) (file : File) (axiosInstance : AxiosInstance)
    (w : World) :
  exists text,
    let form := [("knowledge_data", FormString text); ("file", FormFile file)] in
    let hdrs := [("Content-Type", "multipart/form-data")] in
    events (addKnowledgeFile knowledgeData file axiosInstance w)
    = [AxiosPost axiosInstance "/knowledge/" form hdrs]
    /\ JSON.parse text = Some knowledgeData
    /\ match axios_post axiosInstance "/knowledge/" form hdrs w with
       | (Returns response, w1) =>
           outcome (addKnowledgeFile knowledgeData file axiosInstance w)
           = Returns (data response)
           /\ world_after (addKnowledgeFile knowledgeData file axiosInstance w) = w1
       | (Throws e, w1) =>
           outcome (addKnowledgeFile knowledgeData file axiosInstance w) = Throws e
           /\ world_after (addKnowledgeFile knowledgeData file axiosInstance w) = w1
       end.
Proof.
  exists (JSON.stringify knowledgeData). cbn zeta.
  unfold addKnowledgeFile, bind, perform, ret, FormData_append. cbn [app].
  destruct (axios_post axiosInstance "/knowledge/" _ _ w) as [[r|e] w1];
    (split; [reflexivity|]); (split; [apply parse_stringify|]); split; reflexivity.
Qed.

(** X2. When the document cannot be read, [uploadFile] sends nothing to
    the service: it raises the error notice with the text of the error and
    returns, and the world is the one the failed read left. *)
Theorem uploadFile_unreadable_sends_nothing
    (file : TFile.t) (parentId : option string) (w w1 : World) (e : Error)
    (Hread : vault_read file w = (Throws e, w1)) :
  uploadFile this file parentId w
  = (Returns tt, w1,
     [Enter_uploadFile file parentId; VaultRead file; upload_error_notice file e])
  /\ upload_posts (events (uploadFile this file parentId w)) = [].
Proof.
  assert (Hrun : uploadFile this file parentId w
    = (Returns tt, w1,
       [Enter_uploadFile file parentId; VaultRead file; upload_error_notice file e])).
  { rewrite uploadFile_run, uploadFile_try_run, Hread. reflexivity. }
  split; [exact Hrun|]. rewrite Hrun. reflexivity.
Qed.

(** X3. [uploadFile] never looks at the answer of the POST: whenever the
    POST returns, with whatever status and data, the upload is reported as
    successful and no error notice is raised. *)
Theorem uploadFile_reports_success_on_any_answer
    (file : TFile.t) (parentId : option string) (w w1 w2 : World)
    (c : string) (r : AxiosResponse Json)
    (Hread : vault_read file w = (Returns c, w1))
    (Hpost : axios_post (upload_axios this) "/knowledge/" (upload_form file parentId c)
               upload_headers w1 = (Returns r, w2)) :
  uploadFile this file parentId w
  = (Returns tt, w2,
     [Enter_uploadFile file parentId; VaultRead file;
      upload_post_event this file parentId c;
      Notice ("File uploaded successfully: " ++ TFile.name file) None]).
Proof.
  rewrite uploadFile_run, uploadFile_try_run, Hread, Hpost. reflexivity.
Qed.

End Uploads.

(** [todo.md] cannot be read: no form is posted for it. *)
Lemma uploadFile_unreadable_sends_nothing_witness :
  vault_read (Host := Sim.host) Sim.todo Cases.w_unreadable
  = (Throws "ENOENT", Cases.w_unreadable)
  /\ upload_posts
       (events (uploadFile (host := Sim.host) Sim.plugin Sim.todo (Some "f1")
                  Cases.w_unreadable)) = [].
Proof.
  assert (H : vault_read (Host := Sim.host) Sim.todo Cases.w_unreadable
              = (Throws "ENOENT", Cases.w_unreadable)) by reflexivity.
  split; [exact H|].
  exact (proj2 (uploadFile_unreadable_sends_nothing (host := Sim.host) Sim.plugin
                  Sim.todo (Some "f1") Cases.w_unreadable Cases.w_unreadable "ENOENT" H)).
Defined.

(** The service answers the POST with status 507 and the POST returns: the
    last event is the success notice. *)
Lemma uploadFile_reports_success_on_any_answer_witness :
  vault_read (Host := Sim.host) Sim.notes Cases.w_full = (Returns "# Hello", Cases.w_full)
  /\ axios_post (Host := Sim.host) (upload_axios Sim.plugin) "/knowledge/"
       (upload_form Sim.notes (Some "f1") "# Hello") upload_headers Cases.w_full
     = (Returns {| axios_status := 507; data := Sim.JDetail "no id left" |}, Cases.w_full)
  /\ last (events (uploadFile (host := Sim.host) Sim.plugin Sim.notes (Some "f1")
                     Cases.w_full))
          (Notice "" None)
     = Notice "File uploaded successfully: notes.md" None.
Proof.
  assert (H1 : vault_read (Host := Sim.host) Sim.notes Cases.w_full
               = (Returns "# Hello", Cases.w_full)) by reflexivity.
  assert (H2 : axios_post (Host := Sim.host) (upload_axios Sim.plugin) "/knowledge/"
       (upload_form Sim.notes (Some "f1") "# Hello") upload_headers Cases.w_full
     = (Returns {| axios_status := 507; data := Sim.JDetail "no id left" |}, Cases.w_full))
    by (vm_compute; reflexivity).
  split; [exact H1|]. split; [exact H2|].
  rewrite (uploadFile_reports_success_on_any_answer (host := Sim.host) Sim.plugin
             Sim.notes (Some "f1") Cases.w_full Cases.w_full Cases.w_full "# Hello" _ H1 H2).
  reflexivity.
Defined.

Section FolderBody.

Context {host : Host}.
Variable this : MyPlugin.

Lemma string_length_app (a b : string) :
  String.length (a ++ b) = (String.length a + String.length b)%nat.
Proof. induction a as [|c a IH]; cbn; [reflexivity|]. rewrite IH. reflexivity. Qed.

Lemma strip_suffix_app (suf t : string) : strip_suffix suf (t ++ suf) = Some t.
Proof.
  induction t as [|c t IH].
  - destruct suf; cbn [append strip_suffix]; rewrite String.eqb_refl; reflexivity.
  - cbn [append strip_suffix]. rewrite IH.
    destruct (String.eqb_spec (String c (t ++ suf)) suf) as [Heq|_]; [|reflexivity].
    exfalso. apply (f_equal String.length) in Heq. cbn in Heq.
    rewrite string_length_app in Heq. lia.
Qed.

(** X4. For a folder name without double quote, backslash and control
    character, the one request [createFolder] issues has a body that reads
    back, framing stripped and JSON parsed, as
    [{parent_id: null, file_name: folderName, is_folder: true}]. *)
Theorem createFolder_body_reads_back (folderName : string) (w : World)
    (Hplain : JSON.plain folderName = true) :
  exists request,
    create_folder_calls (events (createFolder this folderName w)) = [request]
    /\ method request = "POST"
    /\ body_knowledge (body request) = Some (mkKnowledgeData None folderName true).
Proof.
  exists (folder_request this folderName).
  pose proof (createFolder_trace this folderName w) as (_ & _ & Hc & _).
  cbn zeta in Hc. split; [exact Hc|]. split; [reflexivity|].
  cbn [body folder_request body_knowledge].
  rewrite StrFacts.expect_app, strip_suffix_app.
  rewrite (folder_knowledge_text_plain _ Hplain). apply parse_stringify.
Qed.

End FolderBody.

(** A folder name with a space and a dot in it. *)
Lemma createFolder_body_reads_back_witness :
  JSON.plain "My notes v1.2" = true
  /\ exists request,
       create_folder_calls
         (events (createFolder (host := Sim.host) Sim.plugin "My notes v1.2" Sim.w_fresh))
       = [request]
       /\ method request = "POST"
       /\ body_knowledge (body request)
          = Some (mkKnowledgeData None "My notes v1.2" true).
Proof.
  split; [reflexivity|].
  exact (createFolder_body_reads_back (host := Sim.host) Sim.plugin "My notes v1.2"
           Sim.w_fresh eq_refl).
Defined.

Section Network.

Context {host : Host}.
Variable this : MyPlugin.

Lemma fetchFiles_token (w : World) :
  forallb (to_quivr_with_token this) (events (fetchFiles this w)) = true.
Proof.
  assert (Hh : has_header (headers (files_request this)) "Authorization"
                 ("Bearer " ++ apiKey (settings this)) = true).
  { unfold has_header. cbn. rewrite String.eqb_refl. reflexivity. }
  cbn [append] in Hh.
  unfold fetchFiles, try_catch, bind, perform, notice, console_error, emit, ret.
  destruct (requestUrl (files_request this) w) as [[resp|e] w1];
    cbn -[has_header files_request];
    [destruct (status resp =? 200); cbn -[has_header files_request]|];
    rewrite Hh; reflexivity.
Qed.

Lemma createFolder_token (folderName : string) (w : World) :
  forallb (to_quivr_with_token this) (events (createFolder this folderName w)) = true.
Proof.
  assert (Hh : has_header (headers (folder_request this folderName)) "Authorization"
                 ("Bearer " ++ apiKey (settings this)) = true).
  { unfold has_header. cbn. rewrite String.eqb_refl. reflexivity. }
  cbn [append] in Hh.
  rewrite createFolder_run.
  destruct (requestUrl (folder_request this folderName) w) as [[resp|e] w1];
    [destruct (status resp =? 200)|];
    cbn -[has_header folder_request]; rewrite Hh; reflexivity.
Qed.

Lemma uploadFile_token (file : TFile.t) (parentId : option string) (w : World) :
  forallb (to_quivr_with_token this) (events (uploadFile this file parentId w)) = true.
Proof.
  assert (Hh : has_header (defaults_headers (upload_axios this)) "Authorization"
                 ("Bearer " ++ apiKey (settings this)) = true).
  { unfold has_header. cbn. rewrite String.eqb_refl. reflexivity. }
  cbn [append] in Hh.
  rewrite uploadFile_run, uploadFile_try_run.
  destruct (vault_read file w) as [[c|e] w1]; [|reflexivity].
  destruct (axios_post _ _ _ _ w1) as [[r|e] w2];
    cbn -[has_header upload_axios upload_form]; rewrite Hh; reflexivity.
Qed.

Lemma upload_loop_token (parentId : option string) (docs : list TFile.t) (w : World) :
  forallb (to_quivr_with_token this)
    (events (for_of docs (upload_step this parentId) w)) = true.
Proof.
  revert w. induction docs as [|f docs IH]; intros w; [reflexivity|].
  cbn [for_of]. rewrite bind_run, upload_step_run. cbn [outcome world_after events fst snd].
  rewrite forallb_app. cbn [forallb to_quivr_with_token].
  rewrite uploadFile_token, IH. reflexivity.
Qed.

Lemma exploreAndUpload_token (w : World) :
  forallb (to_quivr_with_token this) (events (exploreAndUpload this w)) = true.
Proof.
  destruct (exploreAndUpload_run this w) as (v & _ & ->).
  destruct (resolveFolder_run this w) as (files & _ & ->).
  cbn zeta. cbn [events snd world_after fst].
  rewrite !forallb_app. cbn [forallb to_quivr_with_token].
  rewrite fetchFiles_token. cbn [andb].
  apply andb_true_iff. split.
  - destruct (find is_sync_folder files) as [x|] eqn:Hfind.
    + rewrite (reconcile_found this _ _ _ Hfind). reflexivity.
    + rewrite (reconcile_missing this _ _ Hfind). cbn [events snd forallb to_quivr_with_token].
      apply createFolder_token.
  - unfold uploadAll. destruct (truthy v); [apply upload_loop_token|reflexivity].
Qed.

(** X5. Every network call of a run of [exploreAndUpload], and of each
    method taken alone for any argument, goes to [https://api.quivr.app]
    and carries the header [Authorization: Bearer <apiKey>] with the key of
    the plugin's settings, whatever the key is; the plugin contacts no
    other host and sends no request without the token. *)
Theorem network_calls_carry_token (w : World) :
  forallb (to_quivr_with_token this) (events (exploreAndUpload this w)) = true
  /\ forallb (to_quivr_with_token this) (events (fetchFiles this w)) = true
  /\ (forall folderName,
        forallb (to_quivr_with_token this) (events (createFolder this folderName w)) = true)
  /\ (forall file parentId,
        forallb (to_quivr_with_token this) (events (uploadFile this file parentId w)) = true).
Proof.
  split; [apply exploreAndUpload_token|]. split; [apply fetchFiles_token|].
  split; [intros; apply createFolder_token|intros; apply uploadFile_token].
Qed.

End Network.

Section Provenance.

Context {host : Host}.
Variable this : MyPlugin.

Lemma truthy_some (v : option string) :
  truthy v = true -> exists id, v = Some id /\ id <> "".
Proof.
  destruct v as [id|]; [|discriminate]. cbn. intros H. exists id. split; [reflexivity|].
  intros ->. discriminate H.
Qed.

(** X6. Whatever the host does, an upload call is only ever issued for a
    document of the enumeration made at the start, with a parent id that is
    not null and not empty and that is either the id of the first
    "obsidian-sync" folder of the listing or, when the listing has none, the
    id of a creation answered with status 200. *)
Theorem upload_parent_provenance (w : World) (file : TFile.t) (parentId : option string)
    (Hcall : In (file, parentId) (upload_calls (events (exploreAndUpload this w)))) :
  exists id files,
    parentId = Some id
    /\ id <> ""
    /\ In file (vault_getMarkdownFiles w)
    /\ outcome (fetchFiles this w) = Returns files
    /\ ((exists item, find is_sync_folder files = Some item /\ RemoteItem.id item = id)
        \/ (find is_sync_folder files = None
            /\ exists response w1,
                 requestUrl (folder_request this "obsidian-sync")
                   (world_after (fetchFiles this w)) = (Returns response, w1)
                 /\ status response = 200
                 /\ json_id (json response) = id)).
Proof.
  destruct (exploreAndUpload_run this w) as (v & Hv & Hrun).
  destruct (resolveFolder_trace this w) as (files' & _ & _ & Hu & _).
  pose proof (uploadAll_trace this (vault_getMarkdownFiles w) v
                (world_after (resolveFolder this w))) as (_ & Hu2 & _).
  cbn zeta in Hu2. rewrite Hrun in Hcall. cbn zeta in Hcall. cbn [events snd] in Hcall.
  rewrite upload_calls_app, Hu, Hu2 in Hcall. cbn [app] in Hcall.
  destruct (truthy v) eqn:Htruthy; [|destruct Hcall].
  destruct (truthy_some v Htruthy) as (id & -> & Hne).
  apply in_map_iff in Hcall. destruct Hcall as (f & [= <- <-] & Hin).
  destruct (resolveFolder_run this w) as (files & Hf & Hres).
  exists id, files. repeat (split; [assumption || reflexivity|]).
  rewrite Hres in Hv. cbn zeta in Hv. cbn [outcome fst] in Hv.
  destruct (find is_sync_folder files) as [item|] eqn:Hfind.
  - left. exists item. split; [reflexivity|].
    rewrite (reconcile_found this _ _ _ Hfind) in Hv. cbn in Hv. congruence.
  - right. split; [reflexivity|].
    rewrite (reconcile_missing this _ _ Hfind) in Hv. cbn [fst] in Hv.
    rewrite createFolder_run in Hv.
    destruct (requestUrl (folder_request this "obsidian-sync") _) as [[resp|e] w1];
      [|discriminate Hv].
    destruct (Z.eqb_spec (status resp) 200) as [H200|_]; [|discriminate Hv].
    exists resp, w1. cbn in Hv. split; [reflexivity|]. split; [exact H200|congruence].
Qed.

Lemma fetchFiles_before_uploads (w : World) :
  forallb before_uploads (events (fetchFiles this w)) = true.
Proof.
  unfold fetchFiles, try_catch, bind, perform, notice, console_error, emit, ret.
  destruct (requestUrl (files_request this) w) as [[resp|e] w1]; cbn;
    [destruct (status resp =? 200)|]; reflexivity.
Qed.

Lemma resolveFolder_before_uploads (w : World) :
  forallb before_uploads (events (resolveFolder this w)) = true.
Proof.
  destruct (resolveFolder_run this w) as (files & _ & ->).
  cbn zeta. cbn [events snd]. rewrite forallb_app, fetchFiles_before_uploads.
  cbn [forallb before_uploads andb].
  destruct (find is_sync_folder files) as [x|] eqn:Hfind.
  - rewrite (reconcile_found this _ _ _ Hfind). reflexivity.
  - rewrite (reconcile_missing this _ _ Hfind). cbn [events snd forallb before_uploads andb].
    rewrite createFolder_run.
    destruct (requestUrl (folder_request this "obsidian-sync") _) as [[resp|e] w1];
      [destruct (status resp =? 200)|]; reflexivity.
Qed.

Lemma uploadAll_no_request (docs : list TFile.t) (v : option string) (w : World) :
  forallb no_request (events (uploadAll this docs v w)) = true.
Proof.
  unfold uploadAll. destruct (truthy v); [|reflexivity].
  revert w. induction docs as [|f docs IH]; intros w; [reflexivity|].
  cbn [for_of]. rewrite bind_run, upload_step_run. cbn [outcome world_after events fst snd].
  rewrite forallb_app, IH, andb_true_r. cbn [forallb no_request andb].
  rewrite uploadFile_run, uploadFile_try_run.
  destruct (vault_read f w) as [[c|e] w1]; [|reflexivity].
  destruct (axios_post _ _ _ _ w1) as [[r|e] w2]; reflexivity.
Qed.

(** X7. The trace of a run of [exploreAndUpload] splits in two: first the
    folder resolution, which holds the one listing call and in which no
    document is read and nothing is uploaded, then the uploads, during
    which no listing and no folder creation is requested. No upload starts
    before the folder id is settled. *)
Theorem exploreAndUpload_resolves_then_uploads (w : World) :
  exists resolution uploads,
    events (exploreAndUpload this w) = (resolution ++ uploads)%list
    /\ forallb before_uploads resolution = true
    /\ forallb no_request uploads = true
    /\ listing_calls resolution = [RequestUrl (files_request this)]
    /\ upload_calls resolution = []
    /\ create_folder_calls uploads = [].
Proof.
  destruct (exploreAndUpload_run this w) as (v & Hv & ->).
  pose proof (uploadAll_trace this (vault_getMarkdownFiles w) v
                (world_after (resolveFolder this w))) as (_ & _ & Hc & _).
  cbn zeta in *.
  exists (events (resolveFolder this w)),
         (events (uploadAll this (vault_getMarkdownFiles w) v
                    (world_after (resolveFolder this w)))).
  split; [reflexivity|]. split; [apply resolveFolder_before_uploads|].
  split; [apply uploadAll_no_request|].
  destruct (resolveFolder_trace this w) as (files & _ & _ & Hu & _ & Hl).
  split; [exact Hl|]. split; [exact Hu|exact Hc].
Qed.

(** X8. A resolved folder id equal to the empty string is treated like a
    failed resolution: after the resolution the run only raises the notice
    "Failed to determine folder ID for uploads.", no document is read and
    nothing is uploaded. *)
Theorem exploreAndUpload_empty_id_is_failure (w : World)
    (Hempty : outcome (resolveFolder this w) = Returns (Some "")) :
  exploreAndUpload this w
  = (Returns tt, world_after (resolveFolder this w),
     events (resolveFolder this w)
       ++ [Notice "Failed to determine folder ID for uploads." None])%list
  /\ upload_calls (events (exploreAndUpload this w)) = []
  /\ forallb before_uploads (events (exploreAndUpload this w)) = true.
Proof.
  destruct (exploreAndUpload_run this w) as (v & Hv & Hrun).
  rewrite Hv in Hempty. injection Hempty as ->.
  assert (Hrun' : exploreAndUpload this w
     = (Returns tt, world_after (resolveFolder this w),
        events (resolveFolder this w)
          ++ [Notice "Failed to determine folder ID for uploads." None])%list)
    by (rewrite Hrun; reflexivity).
  split; [exact Hrun'|]. rewrite Hrun'. cbn [events snd]. split.
  - rewrite upload_calls_app.
    destruct (resolveFolder_trace this w) as (files & _ & _ & Hu & _).
    rewrite Hu. reflexivity.
  - rewrite forallb_app, resolveFolder_before_uploads. reflexivity.
Qed.

End Provenance.

(** The second document is refused, yet each call has the parent [f1], the
    id of the folder the listing holds. *)
Lemma upload_parent_provenance_witness :
  In (Sim.todo, Some "f1")
     (upload_calls (events (exploreAndUpload (host := Sim.host) Sim.plugin Sim.w_folder)))
  /\ exists id files,
       Some "f1" = Some id
       /\ id <> ""
       /\ In Sim.todo (vault_getMarkdownFiles (Host := Sim.host) Sim.w_folder)
       /\ outcome (fetchFiles (host := Sim.host) Sim.plugin Sim.w_folder) = Returns files
       /\ ((exists item, find is_sync_folder files = Some item /\ RemoteItem.id item = id)
           \/ (find is_sync_folder files = None
               /\ exists response w1,
                    requestUrl (Host := Sim.host) (folder_request Sim.plugin "obsidian-sync")
                      (world_after (fetchFiles (host := Sim.host) Sim.plugin Sim.w_folder))
                    = (Returns response, w1)
                    /\ status response = 200
                    /\ json_id (Host := Sim.host) (json response) = id)).
Proof.
  assert (H : In (Sim.todo, Some "f1")
     (upload_calls (events (exploreAndUpload (host := Sim.host) Sim.plugin Sim.w_folder))))
    by (vm_compute; auto).
  split; [exact H|].
  exact (upload_parent_provenance (host := Sim.host) Sim.plugin Sim.w_folder
           Sim.todo (Some "f1") H).
Defined.

(** The listed folder has the empty id: the document is not even read. *)
Lemma exploreAndUpload_empty_id_is_failure_witness :
  outcome (resolveFolder (host := Sim.host) Sim.plugin Sim.w_empty_id) = Returns (Some "")
  /\ forallb before_uploads
       (events (exploreAndUpload (host := Sim.host) Sim.plugin Sim.w_empty_id)) = true.
Proof.
  assert (H : outcome (resolveFolder (host := Sim.host) Sim.plugin Sim.w_empty_id)
              = Returns (Some "")) by (vm_compute; reflexivity).
  split; [exact H|].
  exact (proj2 (proj2 (exploreAndUpload_empty_id_is_failure (host := Sim.host)
                         Sim.plugin Sim.w_empty_id H))).
Defined.

Section SyncCommand.

Context {host : Host}.
Variable root_name : World -> string.
Variable this : MyPlugin.

Lemma last_app_r {A} (l m : list A) (d : A) : m <> [] -> last (l ++ m) d = last m d.
Proof.
  intros Hm. induction l as [|a l IH]; [reflexivity|].
  cbn [app]. destruct (l ++ m)%list eqn:E.
  - apply app_eq_nil in E. destruct E as [_ E]. contradiction.
  - cbn [last]. exact IH.
Qed.

Lemma exploreAndUpload_returns (w : World) :
  outcome (exploreAndUpload this w) = Returns tt.
Proof.
  destruct (exploreAndUpload_run this w) as (v & _ & ->).
  apply (uploadAll_trace this (vault_getMarkdownFiles w) v).
Qed.

Lemma exploreAndUpload_listing_calls (w : World) :
  listing_calls (events (exploreAndUpload this w)) = [RequestUrl (files_request this)].
Proof.
  destruct (exploreAndUpload_run this w) as (v & _ & ->).
  destruct (resolveFolder_trace this w) as (files & _ & _ & _ & _ & Hl).
  pose proof (uploadAll_trace this (vault_getMarkdownFiles w) v
                (world_after (resolveFolder this w))) as (_ & _ & _ & Hl2).
  cbn zeta in *. cbn [events snd]. rewrite listing_calls_app, Hl, Hl2. reflexivity.
Qed.

(** How a run of the command unfolds: the run of [exploreAndUpload], then a
    second listing from the world the uploads left. *)
Lemma quivr_sync_run (w : World) :
  exists files,
    outcome (fetchFiles this (world_after (exploreAndUpload this w))) = Returns files
    /\ quivr_sync root_name this w
       = (Returns tt,
          world_after (fetchFiles this (world_after (exploreAndUpload this w))),
          [Notice "Starting sync to Quivr..." None;
           Notice ("Root folder: " ++ root_name w) None]
            ++ events (exploreAndUpload this w)
            ++ Notice "Finished uploading files. Fetching files from Quivr..." None
            :: events (fetchFiles this (world_after (exploreAndUpload this w)))
            ++ [Notice ("Folders: "
                          ++ join ", " (map RemoteItem.file_name
                                          (filter RemoteItem.is_folder files))) None;
                Notice "Sync complete." None])%list.
Proof.
  destruct (fetchFiles_returns this (world_after (exploreAndUpload this w))) as (files & Hf).
  exists files. split; [exact Hf|].
  pose proof (exploreAndUpload_returns w) as Hret.
  revert Hf Hret. unfold quivr_sync, bind, notice, emit.
  destruct (exploreAndUpload this w) as [[o1 w1] t1].
  cbn [outcome world_after events fst snd].
  destruct (fetchFiles this w1) as [[o2 w2] t2].
  cbn [outcome world_after events fst snd]. intros -> ->.
  cbn [app]. reflexivity.
Qed.

(** A failed listing followed by a failed creation: the run of
    [exploreAndUpload] is the two failed calls with their notices and the
    failure notice of the guard. *)
Lemma exploreAndUpload_service_fails (w : World) :
  request_fails (files_request this) w ->
  request_fails (folder_request this "obsidian-sync") (world_after (fetchFiles this w)) ->
  outcome (exploreAndUpload this w) = Returns tt
  /\ upload_calls (events (exploreAndUpload this w)) = []
  /\ create_folder_calls (events (exploreAndUpload this w))
     = [folder_request this "obsidian-sync"]
  /\ forallb before_uploads (events (exploreAndUpload this w)) = true
  /\ last (events (exploreAndUpload this w)) (Notice "" None)
     = Notice "Failed to determine folder ID for uploads." None.
Proof.
  intros Hlist Hcreate.
  destruct (listing_failure_creates_folder this w Hlist) as (Hnil & Hcalls).
  destruct (resolveFolder_run this w) as (files & Hf & Hres).
  rewrite Hnil in Hf. injection Hf as <-.
  rewrite (reconcile_missing this [] _ eq_refl), createFolder_run in Hres.
  unfold request_fails in Hcreate.
  assert (Hnull : outcome (resolveFolder this w) = Returns None).
  { rewrite Hres. cbn zeta. cbn [outcome fst].
    destruct (requestUrl (folder_request this "obsidian-sync") _) as [[resp|e] w1];
      [|reflexivity].
    destruct (Z.eqb_spec (status resp) 200); [contradiction|reflexivity]. }
  destruct (exploreAndUpload_run this w) as (v & Hv & Hrun).
  rewrite Hnull in Hv. injection Hv as <-.
  rewrite Hrun. cbn zeta. cbn [outcome events fst snd uploadAll truthy].
  unfold notice, emit. cbn [outcome events fst snd].
  pose proof (resolveFolder_trace this w) as (files & _ & _ & Hu & _).
  split; [reflexivity|]. split.
  { rewrite upload_calls_app, Hu. reflexivity. }
  split.
  { rewrite <- Hcalls, Hrun. cbn zeta. cbn [events snd uploadAll truthy].
    unfold notice, emit. cbn [events snd]. reflexivity. }
  split.
  { rewrite forallb_app, resolveFolder_before_uploads. reflexivity. }
  rewrite last_app_r by discriminate. reflexivity.
Qed.

(** X9. When the service fails throughout a run of the sync command (the
    listing, the folder creation and the listing made at the end each throw
    or are answered with a status other than 200), the command still runs
    to its end: it issues the two listing calls and one create-folder call,
    reads no document and uploads nothing, raises the notice that no folder
    id could be determined, shows an empty folder list, and closes with the
    notice "Sync complete.". *)
Theorem quivr_sync_completes_when_service_fails (w : World)
    (Hlist : request_fails (files_request this) w)
    (Hcreate : request_fails (folder_request this "obsidian-sync")
                 (world_after (fetchFiles this w)))
    (Hlist2 : request_fails (files_request this) (world_after (exploreAndUpload this w))) :
  let t := events (quivr_sync root_name this w) in
  outcome (quivr_sync root_name this w) = Returns tt
  /\ listing_calls t = [RequestUrl (files_request this); RequestUrl (files_request this)]
  /\ create_folder_calls t = [folder_request this "obsidian-sync"]
  /\ upload_calls t = []
  /\ forallb before_uploads t = true
  /\ In (Notice "Failed to determine folder ID for uploads." None) t
  /\ In (Notice "Folders: " None) t
  /\ last t (Notice "" None) = Notice "Sync complete." None.
Proof.
  cbn zeta.
  destruct (exploreAndUpload_service_fails w Hlist Hcreate)
    as (Hret & Hu1 & Hc1 & Hb1 & Hlast1).
  destruct (listing_failure_creates_folder this _ Hlist2) as (Hnil & _).
  destruct (quivr_sync_run w) as (files & Hf & ->).
  rewrite Hnil in Hf. injection Hf as <-.
  cbn [outcome events fst snd filter map join append].
  pose proof (fetchFiles_trace this (world_after (exploreAndUpload this w)))
    as (Hu2 & Hc2 & Hl2).
  pose proof (fetchFiles_before_uploads this (world_after (exploreAndUpload this w))) as Hb2.
  pose proof (exploreAndUpload_listing_calls w) as Hl1.
  cbn zeta in *.
  split; [reflexivity|]. split.
  { observe. rewrite Hl1, Hl2. reflexivity. }
  split.
  { observe. rewrite Hc1, Hc2. reflexivity. }
  split.
  { observe. rewrite Hu1, Hu2. reflexivity. }
  split.
  { cbn [app forallb before_uploads andb]. rewrite forallb_app, Hb1.
    cbn [forallb before_uploads andb]. rewrite forallb_app, Hb2. reflexivity. }
  split.
  { apply in_or_app. right. apply in_or_app. left.
    assert (Hne : events (exploreAndUpload this w) <> []).
    { intros E. rewrite E in Hc1. discriminate Hc1. }
    rewrite <- Hlast1. destruct (exists_last Hne) as (l & a & ->).
    rewrite last_last. apply in_or_app. right. left. reflexivity. }
  split.
  { apply in_or_app. right. apply in_or_app. right. right.
    apply in_or_app. right. left. reflexivity. }
  rewrite !last_app_r by (try discriminate; intros H; apply app_eq_nil in H;
                           destruct H as [_ H]; discriminate H).
  change (Notice "Finished uploading files. Fetching files from Quivr..." None
            :: ?l ++ ?m)%list
    with ((Notice "Finished uploading files. Fetching files from Quivr..." None
             :: l) ++ m)%list.
  rewrite last_app_r by discriminate. reflexivity.
Qed.

(** X10. The folder names the command shows at its end are those of the
    items with [is_folder] of a second listing, made after the uploads, in
    listing order; when that listing fails the notice shows no name. *)
Theorem quivr_sync_shows_folders_of_second_listing (w : World) :
  let w1 := world_after (exploreAndUpload this w) in
  exists files,
    outcome (fetchFiles this w1) = Returns files
    /\ In (Notice ("Folders: "
                     ++ join ", " (map RemoteItem.file_name
                                     (filter RemoteItem.is_folder files))) None)
          (events (quivr_sync root_name this w))
    /\ match requestUrl (files_request this) w1 with
       | (Returns response, _) =>
           if status response =? 200 then files = json_files (json response)
           else files = []
       | (Throws _, _) => files = []
       end.
Proof.
  cbn zeta. destruct (quivr_sync_run w) as (files & Hf & ->).
  exists files. split; [exact Hf|]. split.
  - cbn [events snd]. apply in_or_app. right. apply in_or_app. right.
    right. apply in_or_app. right. left. reflexivity.
  - revert Hf. unfold fetchFiles, try_catch, bind, perform, notice, console_error, emit, ret.
    destruct (requestUrl (files_request this) _) as [[resp|e] w2]; cbn.
    + destruct (status resp =? 200); cbn; congruence.
    + congruence.
Qed.

End SyncCommand.

Section SettingsFacts.

Context {host : Host}.
Variable loadData : World -> Completion Error (option SavedData) * World.
Variable saveData : MyPluginSettings -> World -> Completion Error unit * World.

(** X11. Round trip of the API key. On a host whose [loadData] gives back
    what [saveData] stored last, a key entered in the settings field and
    saved without error is the key [loadSettings] yields next, from any
    plugin state and for every key, the empty one included. *)
Theorem settings_round_trip
    (this this0 this1 : MyPlugin) (value : string) (w w1 : World)
    (Hstore : forall st wa wb,
        saveData st wa = (Returns tt, wb) ->
        exists wc, loadData wb = (Returns (Some {| saved_apiKey := Some (apiKey st) |}), wc))
    (Hsaved : onChange saveData this value w = (this1, Returns tt, w1)) :
  apiKey (settings this1) = value
  /\ exists w2,
       loadSettings loadData this0 w1
       = ({| settings := {| apiKey := value |} |}, Returns tt, w2).
Proof.
  unfold onChange, saveSettings in Hsaved. cbn [settings] in Hsaved.
  destruct (saveData {| apiKey := value |} w) as [r wb] eqn:Hsave.
  injection Hsaved as <- -> ->.
  split; [reflexivity|].
  destruct (Hstore _ _ _ Hsave) as (wc & Hload).
  exists wc. unfold loadSettings. rewrite Hload. reflexivity.
Qed.

(** X12. Nothing checks that an API key is set. When no data was saved,
    or the saved data has no [apiKey], [loadSettings] yields the default
    settings with the empty key, and a sync run with them still issues its
    listing call, carrying the header [Authorization: Bearer ] with no
    key. *)
Theorem missing_key_still_syncs
    (this0 : MyPlugin) (data : option SavedData) (w w1 : World)
    (Hload : loadData w = (Returns data, w1))
    (Hnokey : match data with Some d => saved_apiKey d = None | None => True end) :
  let this1 := fst (fst (loadSettings loadData this0 w)) in
  settings this1 = DEFAULT_SETTINGS
  /\ exists request,
       listing_calls (events (exploreAndUpload this1 w1)) = [RequestUrl request]
       /\ method request = "GET"
       /\ has_header (headers request) "Authorization" "Bearer " = true.
Proof.
  cbn zeta. unfold loadSettings. rewrite Hload. cbn [fst].
  assert (Hdef : Object_assign_settings DEFAULT_SETTINGS data = DEFAULT_SETTINGS).
  { unfold Object_assign_settings. destruct data as [d|]; [|reflexivity].
    rewrite Hnokey. reflexivity. }
  rewrite Hdef. split; [reflexivity|].
  set (this1 := {| settings := DEFAULT_SETTINGS |}).
  destruct (exploreAndUpload_run this1 w1) as (v & _ & Hrun).
  destruct (resolveFolder_trace this1 w1) as (files & _ & _ & _ & _ & Hl).
  pose proof (uploadAll_trace this1 (vault_getMarkdownFiles w1) v
                (world_after (resolveFolder this1 w1))) as (_ & _ & _ & Hl2).
  cbn zeta in *. rewrite Hrun. cbn [events snd].
  exists (files_request this1). rewrite listing_calls_app, Hl, Hl2.
  repeat split.
Qed.

End SettingsFacts.

(** The key [secret] is typed into the field of a fresh install and then
    loaded again. *)
Lemma settings_round_trip_witness :
  (forall st wa wb,
      Disk.saveData st wa = (Returns tt, wb) ->
      exists wc, Disk.loadData wb
                 = (Returns (Some {| saved_apiKey := Some (apiKey st) |}), wc))
  /\ onChange (host := Disk.host) Disk.saveData Sim.plugin "secret" Disk.fresh_install
     = ({| settings := {| apiKey := "secret" |} |}, Returns tt,
        (Sim.w_folder, Some {| saved_apiKey := Some "secret" |}))
  /\ exists w2,
       loadSettings (host := Disk.host) Disk.loadData Sim.plugin
         (Sim.w_folder, Some {| saved_apiKey := Some "secret" |})
       = ({| settings := {| apiKey := "secret" |} |}, Returns tt, w2).
Proof.
  assert (H1 : forall st wa wb,
      Disk.saveData st wa = (Returns tt, wb) ->
      exists wc, Disk.loadData wb
                 = (Returns (Some {| saved_apiKey := Some (apiKey st) |}), wc)).
  { intros st wa wb H. unfold Disk.saveData in H. injection H as <-.
    eexists. reflexivity. }
  assert (H2 : onChange (host := Disk.host) Disk.saveData Sim.plugin "secret"
                 Disk.fresh_install
     = ({| settings := {| apiKey := "secret" |} |}, Returns tt,
        (Sim.w_folder, Some {| saved_apiKey := Some "secret" |}))) by reflexivity.
  split; [exact H1|]. split; [exact H2|].
  exact (proj2 (settings_round_trip (host := Disk.host) Disk.loadData Disk.saveData
                  Sim.plugin Sim.plugin _ "secret" Disk.fresh_install _ H1 H2)).
Defined.

(** A fresh install: nothing saved, the sync runs with the empty key. *)
Lemma missing_key_still_syncs_witness :
  Disk.loadData Disk.fresh_install = (Returns None, Disk.fresh_install)
  /\ settings (fst (fst (loadSettings (host := Disk.host) Disk.loadData Sim.plugin
                           Disk.fresh_install)))
     = DEFAULT_SETTINGS.
Proof.
  assert (H : Disk.loadData Disk.fresh_install = (Returns None, Disk.fresh_install))
    by reflexivity.
  split; [exact H|].
  exact (proj1 (missing_key_still_syncs (host := Disk.host) Disk.loadData Sim.plugin
                  None Disk.fresh_install Disk.fresh_install H I)).
Defined.

Section CreationStatus.

Context {host : Host}.
Variable this : MyPlugin.

(** X13. Only the status 200 counts as a created folder. When the listing
    holds no match and the creation is answered with any other status, 201
    included, the run shows the body of the answer in a notice, resolves no
    folder and uploads nothing, whatever the service did with the request. *)
Theorem creation_not_200_uploads_nothing
    (w w2 : World) (files : list RemoteItem.t) (response : RequestUrlResponse Json)
    (Hfiles : outcome (fetchFiles this w) = Returns files)
    (Hnone : find is_sync_folder files = None)
    (Hanswer : requestUrl (folder_request this "obsidian-sync")
                 (world_after (fetchFiles this w)) = (Returns response, w2))
    (Hstatus : status response <> 200) :
  outcome (resolveFolder this w) = Returns None
  /\ world_after (exploreAndUpload this w) = w2
  /\ upload_calls (events (exploreAndUpload this w)) = []
  /\ forallb before_uploads (events (exploreAndUpload this w)) = true
  /\ In (NoticeJson (json response)) (events (exploreAndUpload this w))
  /\ last (events (exploreAndUpload this w)) (Notice "" None)
     = Notice "Failed to determine folder ID for uploads." None.
Proof.
  destruct (resolveFolder_run this w) as (files' & Hf & Hres).
  rewrite Hfiles in Hf. injection Hf as <-.
  rewrite (reconcile_missing this _ _ Hnone), createFolder_run, Hanswer in Hres.
  destruct (Z.eqb_spec (status response) 200) as [H200|_]; [contradiction|].
  cbn zeta in Hres. cbn [outcome world_after events fst snd] in Hres.
  destruct (exploreAndUpload_run this w) as (v & Hv & Hrun).
  rewrite Hres in Hv. cbn [outcome fst] in Hv. injection Hv as <-.
  rewrite Hrun, Hres. cbn zeta. cbn [outcome world_after events fst snd uploadAll truthy].
  unfold notice, emit. cbn [outcome world_after events fst snd].
  pose proof (fetchFiles_trace this w) as (Hu & _).
  pose proof (fetchFiles_before_uploads this w) as Hb.
  cbn zeta in Hu.
  split; [reflexivity|]. split; [reflexivity|]. split.
  { observe. rewrite Hu. reflexivity. }
  split.
  { rewrite !forallb_app, Hb. reflexivity. }
  split.
  { apply in_or_app. left. apply in_or_app. right. cbn. auto 10. }
  rewrite last_app_r by discriminate. reflexivity.
Qed.

End CreationStatus.

(** The service answers the creation with 201: the one local document is
    not uploaded. *)
Lemma creation_not_200_uploads_nothing_witness :
  outcome (fetchFiles (host := Sim.host) Sim.plugin Cases.w_created_201) = Returns []
  /\ requestUrl (Host := Sim.host) (folder_request Sim.plugin "obsidian-sync")
       (world_after (fetchFiles (host := Sim.host) Sim.plugin Cases.w_created_201))
     = (Returns {| status := 201; json := Sim.JDetail "creation failed" |},
        Cases.w_created_201)
  /\ vault_getMarkdownFiles (Host := Sim.host) Cases.w_created_201 = [Sim.notes]
  /\ upload_calls
       (events (exploreAndUpload (host := Sim.host) Sim.plugin Cases.w_created_201)) = [].
Proof.
  assert (H1 : outcome (fetchFiles (host := Sim.host) Sim.plugin Cases.w_created_201)
               = Returns []) by (vm_compute; reflexivity).
  assert (H2 : requestUrl (Host := Sim.host) (folder_request Sim.plugin "obsidian-sync")
       (world_after (fetchFiles (host := Sim.host) Sim.plugin Cases.w_created_201))
     = (Returns {| status := 201; json := Sim.JDetail "creation failed" |},
        Cases.w_created_201)) by (vm_compute; reflexivity).
  split; [exact H1|]. split; [exact H2|]. split; [reflexivity|].
  refine (proj1 (proj2 (proj2
    (creation_not_200_uploads_nothing (host := Sim.host) Sim.plugin
       Cases.w_created_201 Cases.w_created_201 [] _ H1 eq_refl H2 _)))).
  discriminate.
Defined.

(** The listing answers 503 and the creation is rejected, before and after:
    the command still closes with its last notice. *)
Lemma quivr_sync_completes_when_service_fails_witness :
  request_fails (host := Sim.host) (files_request Sim.plugin) Sim.w_down
  /\ request_fails (host := Sim.host) (folder_request Sim.plugin "obsidian-sync")
       (world_after (fetchFiles (host := Sim.host) Sim.plugin Sim.w_down))
  /\ request_fails (host := Sim.host) (files_request Sim.plugin)
       (world_after (exploreAndUpload (host := Sim.host) Sim.plugin Sim.w_down))
  /\ last (events (quivr_sync (host := Sim.host) (fun _ => "") Sim.plugin Sim.w_down))
          (Notice "" None)
     = Notice "Sync complete." None.
Proof.
  assert (H1 : request_fails (host := Sim.host) (files_request Sim.plugin) Sim.w_down)
    by (vm_compute; discriminate).
  assert (H2 : request_fails (host := Sim.host) (folder_request Sim.plugin "obsidian-sync")
       (world_after (fetchFiles (host := Sim.host) Sim.plugin Sim.w_down)))
    by (vm_compute; exact I).
  assert (H3 : request_fails (host := Sim.host) (files_request Sim.plugin)
       (world_after (exploreAndUpload (host := Sim.host) Sim.plugin Sim.w_down)))
    by (vm_compute; discriminate).
  split; [exact H1|]. split; [exact H2|]. split; [exact H3|].
  exact (proj2 (proj2 (proj2 (proj2 (proj2 (proj2 (proj2
    (quivr_sync_completes_when_service_fails (host := Sim.host) (fun _ => "")
       Sim.plugin Sim.w_down H1 H2 H3)))))))).
Defined.
